(** * QuicTransportFactoryImpl: the endpoint factory of the OWT QUIC SDK

    A shallow embedding of
    [web_transport/sdk/impl/quic_transport_factory_impl.cc].

    The factory owns two [base::Thread]s, creates servers on the calling
    thread after initialising a proof source, and creates clients by
    posting a construction task to the I/O thread and waiting on a
    [base::WaitableEvent].  The process, its threads, the objects made by
    [new] and the locals shared with a posted task live in a [World] that
    every operation threads through. *)

From Stdlib Require Import ZArith Lia Bool.
From stdpp Require Import base list strings.

Local Open Scope string_scope.
Local Open Scope list_scope.
Local Open Scope nat_scope.

(** ** Values of the collaborating libraries *)

(** [base::FilePath]: a path is its string; [FilePath()] is the empty path. *)
Definition FilePath := string.
Definition FilePath_FromUTF8Unsafe (s : string) : FilePath := s.
Definition FilePath_empty : FilePath := "".

(** [base::MessagePumpType]. *)
Inductive MessagePumpType := DEFAULT | UI | CUSTOM | IO.

(** [base::Thread::Options], of which the constructor sets one field. *)
Record ThreadOptions := { message_pump_type : MessagePumpType }.

(** [logging::LogSeverity] is an [int]. *)
Definition LogSeverity := Z.
Definition LOG_INFO : LogSeverity := 0%Z.
Definition LOG_WARNING : LogSeverity := 1%Z.
Definition LOG_ERROR : LogSeverity := 2%Z.

Inductive LoggingDestination :=
  LOG_NONE | LOG_TO_FILE | LOG_TO_SYSTEM_DEBUG_LOG | LOG_TO_STDERR.

(** [logging::LoggingSettings], of which [Init] sets one field. *)
Record LoggingSettings := { logging_dest : LoggingDestination }.

(** Pointers.  An object made by [new] has the address [S k] when it is the
    [k]-th allocation; [nullptr] is [0]. *)
Definition Ptr := nat.
Definition nullptr : Ptr := 0.

(** A [base::Thread*] is the index of the thread in the world's table. *)
Definition ThreadPtr := nat.

(** The thread a piece of code runs on: the thread that called into the
    factory, or one of the worker threads. *)
Inductive ThreadId := CallerThread | WorkerThread (t : ThreadPtr).

(** ** Fingerprints *)

(** Modelled from the spec: the declaration of
    [owt::quic::CertificateFingerprint] (the SDK's [quic_definitions.h]) is
    not among the sources.  The spec's fingerprint record has a digest
    algorithm and the digest; the factory reads the [fingerprint] field
    only. *)
Module owt.
Record CertificateFingerprint := {
  algorithm : string;
  fingerprint : string
}.
End owt.

(** [::quic::CertificateFingerprint] of the QUIC library, with its constant
    [kSha256]. *)
Module quic.
Record CertificateFingerprint := {
  algorithm : string;
  fingerprint : string
}.
Definition kSha256 : string := "sha-256".
End quic.

(** [QuicTransportClientInterface::Parameters]: an array of pointers to
    fingerprint records, and the length the caller states for it.  The
    length is a [size_t]; the loop that counts up to it stays below it and
    never wraps. *)
Record Parameters := {
  server_certificate_fingerprints : list owt.CertificateFingerprint;
  server_certificate_fingerprints_length : nat
}.

(** [net::WebTransportParameters]: the fingerprints the verifier accepts,
    a [std::vector] filled with [push_back]. *)
Record WebTransportParameters := {
  wt_server_certificate_fingerprints : list quic.CertificateFingerprint
}.

Definition push_back (param : WebTransportParameters)
    (x : quic.CertificateFingerprint) : WebTransportParameters :=
  {| wt_server_certificate_fingerprints :=
       wt_server_certificate_fingerprints param ++ [x] |}.

(** ** URLs and origins *)

Record GURL := { spec : string }.

(** [url::Origin]: a (scheme, host, port) tuple, or an opaque origin. *)
Inductive Origin :=
| OpaqueOrigin
| TupleOrigin (scheme host : string) (port : Z).

(** ** Proof sources *)

(** A proof source remembers what it was initialised from; a fresh one has
    loaded nothing. *)
Record ProofSourceChromium := {
  chromium_loaded : option (FilePath * FilePath * FilePath)
}.

Record ProofSourceOwt := {
  owt_loaded : option (FilePath * string)
}.

(** [std::unique_ptr<::quic::ProofSource>]: either implementation. *)
Inductive ProofSource :=
| OfChromium (p : ProofSourceChromium)
| OfOwt (p : ProofSourceOwt).

(** ** Endpoints

    [QuicTransportOwtServerImpl] and [QuicTransportOwtClientImpl] are
    defined in other files of the SDK; an endpoint is recorded here as the
    arguments the factory passes to its constructor. *)

Record QuicTransportOwtServerImpl := {
  server_port : Z;
  server_accepted_origins : list Origin;
  server_proof_source : ProofSource;
  server_io_thread : ThreadPtr;
  server_event_thread : ThreadPtr
}.

Record QuicTransportOwtClientImpl := {
  client_url : GURL;
  client_origin : Origin;
  client_parameters : WebTransportParameters;
  client_io_thread : ThreadPtr;
  client_event_thread : ThreadPtr
}.

Inductive Object :=
| ServerObject (s : QuicTransportOwtServerImpl)
| ClientObject (c : QuicTransportOwtClientImpl).

(** ** Threads, tasks and events *)

(** A [base::Thread] object behind a thread pointer: alive, with its name,
    whether its thread is running and its message pump, or destroyed.  A
    pointer to a destroyed object dangles: every use of it is undefined. *)
Inductive Thread :=
| Thread_alive (name : string) (running : bool) (pump : MessagePumpType)
| Thread_destroyed.

Definition thread_running (th : Thread) : bool :=
  match th with
  | Thread_alive _ running _ => running
  | Thread_destroyed => false
  end.

(** The one closure the factory posts: the lambda of
    [CreateQuicTransportClient] with its bound arguments.  [task_result]
    and [task_event] are the addresses of the poster's locals [result] and
    [done]. *)
Record Task := {
  task_url : string;
  task_param : WebTransportParameters;
  task_io_thread : ThreadPtr;
  task_event_thread : ThreadPtr;
  task_result : nat;
  task_event : nat
}.

Inductive ResetPolicy := MANUAL | AUTOMATIC.
Inductive InitialState := SIGNALED | NOT_SIGNALED.

Record WaitableEvent := {
  reset_policy : ResetPolicy;
  signaled : bool
}.

(** ** The process *)

(** The bootstrap calls the factory makes into [base] and [logging], in the
    order they were made. *)
Inductive BootstrapCall :=
| CommandLine_Init_call (argc : Z)
| AppendSwitch_call (switch : string)
| SetMinLogLevel_call (level : LogSeverity)
| InitLogging_call (settings : LoggingSettings).

Record ProcessEnv := {
  thread_pool : option string;
  command_line : option (list string);
  min_log_level : LogSeverity;
  logging : option LoggingSettings;
  log : list (LogSeverity * string);
  bootstrap : list BootstrapCall
}.

Record World := {
  threads : list Thread;
  pending : list (ThreadPtr * Task);
  heap : list (ThreadId * Object);
  cells : list Ptr;
  events : list WaitableEvent;
  env : ProcessEnv
}.

(** A process in which nothing has run yet. *)
Definition fresh_env : ProcessEnv :=
  {| thread_pool := None; command_line := None; min_log_level := LOG_INFO;
     logging := None; log := []; bootstrap := [] |}.

Definition fresh_world : World :=
  {| threads := []; pending := []; heap := []; cells := []; events := [];
     env := fresh_env |}.

Definition set_threads (f : list Thread -> list Thread) (w : World) : World :=
  {| threads := f (threads w); pending := pending w; heap := heap w;
     cells := cells w; events := events w; env := env w |}.

Definition set_pending (f : list (ThreadPtr * Task) -> list (ThreadPtr * Task))
    (w : World) : World :=
  {| threads := threads w; pending := f (pending w); heap := heap w;
     cells := cells w; events := events w; env := env w |}.

Definition set_heap (f : list (ThreadId * Object) -> list (ThreadId * Object))
    (w : World) : World :=
  {| threads := threads w; pending := pending w; heap := f (heap w);
     cells := cells w; events := events w; env := env w |}.

Definition set_cells (f : list Ptr -> list Ptr) (w : World) : World :=
  {| threads := threads w; pending := pending w; heap := heap w;
     cells := f (cells w); events := events w; env := env w |}.

Definition set_events (f : list WaitableEvent -> list WaitableEvent)
    (w : World) : World :=
  {| threads := threads w; pending := pending w; heap := heap w;
     cells := cells w; events := f (events w); env := env w |}.

Definition set_env (f : ProcessEnv -> ProcessEnv) (w : World) : World :=
  {| threads := threads w; pending := pending w; heap := heap w;
     cells := cells w; events := events w; env := f (env w) |}.

(** The object behind a pointer. *)
Definition deref (w : World) (p : Ptr) : option (ThreadId * Object) :=
  match p with
  | 0 => None
  | S k => heap w !! k
  end.

(** ** Outcomes

    A call returns a value, or its thread stays blocked for ever, or it
    has undefined behaviour (it read through a pointer to nothing). *)
Inductive Outcome (A : Type) :=
| Returned (a : A) (w : World)
| Blocked (w : World)
| Undefined.

Arguments Returned {A} a w.
Arguments Blocked {A} w.
Arguments Undefined {A}.

Definition M (A : Type) : Type := World -> Outcome A.

Definition ret {A} (a : A) : M A := fun w => Returned a w.

Definition bind {A B} (c : M A) (k : A -> M B) : M B :=
  fun w =>
    match c w with
    | Returned a w' => k a w'
    | Blocked w' => Blocked w'
    | Undefined => Undefined
    end.

Definition modify (f : World -> World) : M unit := fun w => Returned tt (f w).

Definition undefined {A} : M A := fun _ => Undefined.

Declare Scope factory_scope.
Delimit Scope factory_scope with factory.
Notation "'do' x <- c ; k" := (bind c (fun x => k))
  (at level 10, x name, c at level 100, k at level 200) : factory_scope.
Notation "c ;; k" := (bind c (fun _ => k))
  (at level 100, k at level 200, right associativity) : factory_scope.
Local Open Scope factory_scope.

(** ** [base::Thread] and its task runner *)

(** [std::make_unique<base::Thread>(name)]: a new thread object, not yet
    started. *)
Definition make_unique_Thread (name : string) : M ThreadPtr :=
  fun w =>
    Returned (length (threads w))
      (set_threads
         (fun ts => ts ++ [Thread_alive name false DEFAULT]) w).

Definition Thread_StartWithOptions (t : ThreadPtr) (options : ThreadOptions)
    : M bool :=
  fun w =>
    match threads w !! t with
    | Some (Thread_alive name _ _) =>
        Returned true
          (set_threads
             (fun ts => <[t := Thread_alive name true
                                 (message_pump_type options)]> ts)
             w)
    | _ => Undefined
    end.

(** The end of a [std::unique_ptr<base::Thread>]: [~Thread] stops the
    thread, the tasks it had not started are dropped, and the object is
    freed.  Destroying what is not an object any more is undefined. *)
Definition Thread_delete (t : ThreadPtr) : M unit :=
  fun w =>
    match threads w !! t with
    | Some (Thread_alive _ _ _) =>
        Returned tt
          (set_pending (fun q => filter (fun x => fst x <> t) q)
             (set_threads (fun ts => <[t := Thread_destroyed]> ts) w))
    | _ => Undefined
    end.

(** [thread->task_runner()->PostTask(FROM_HERE, task)]: a running thread
    queues the task; a thread object that is not running takes none, and
    the task is dropped.  Through a pointer to a destroyed thread the call
    is undefined. *)
Definition PostTask (t : ThreadPtr) (task : Task) : M bool :=
  fun w =>
    match threads w !! t with
    | Some (Thread_alive _ running _) =>
        if running
        then Returned true (set_pending (fun q => q ++ [(t, task)]) w)
        else Returned false w
    | _ => Undefined
    end.

(** [new T(...)], run on the thread [self]. *)
Definition new_ (self : ThreadId) (o : Object) : M Ptr :=
  fun w =>
    Returned (S (length (heap w))) (set_heap (fun h => h ++ [(self, o)]) w).

(** A local [QuicTransportClientInterface*] whose address is handed to a
    task. *)
Definition local_cell (v : Ptr) : M nat :=
  fun w => Returned (length (cells w)) (set_cells (fun cs => cs ++ [v]) w).

Definition write_cell (c : nat) (v : Ptr) : M unit :=
  fun w =>
    match cells w !! c with
    | None => Undefined
    | Some _ => Returned tt (set_cells (fun cs => <[c := v]> cs) w)
    end.

Definition read_cell (c : nat) : M Ptr :=
  fun w =>
    match cells w !! c with
    | None => Undefined
    | Some v => Returned v w
    end.

Definition WaitableEvent_new (policy : ResetPolicy) (initial : InitialState)
    : M nat :=
  fun w =>
    Returned (length (events w))
      (set_events
         (fun es => es ++ [{| reset_policy := policy;
                              signaled := match initial with
                                          | SIGNALED => true
                                          | NOT_SIGNALED => false
                                          end |}]) w).

Definition WaitableEvent_Signal (e : nat) : M unit :=
  fun w =>
    match events w !! e with
    | None => Undefined
    | Some ev =>
        Returned tt
          (set_events
             (fun es => <[e := {| reset_policy := reset_policy ev;
                                  signaled := true |}]> es) w)
    end.

(** ** The process environment *)

Definition record_call (c : BootstrapCall) (e : ProcessEnv) : ProcessEnv :=
  {| thread_pool := thread_pool e; command_line := command_line e;
     min_log_level := min_log_level e; logging := logging e; log := log e;
     bootstrap := bootstrap e ++ [c] |}.

Definition set_command_line (cl : option (list string)) (e : ProcessEnv)
    : ProcessEnv :=
  {| thread_pool := thread_pool e; command_line := cl;
     min_log_level := min_log_level e; logging := logging e; log := log e;
     bootstrap := bootstrap e |}.

(** [base::ThreadPoolInstance::CreateAndStartWithDefaultParams(name)]. *)
Definition ThreadPoolInstance_CreateAndStartWithDefaultParams (name : string)
    : M unit :=
  modify (set_env (fun e =>
    {| thread_pool := Some name; command_line := command_line e;
       min_log_level := min_log_level e; logging := logging e; log := log e;
       bootstrap := bootstrap e |})).

(** [base::CommandLine::Init(argc, nullptr)]: makes the process's command
    line when there is none yet, and says whether it did. *)
Definition CommandLine_Init (argc : Z) : M bool :=
  fun w =>
    let e := record_call (CommandLine_Init_call argc) (env w) in
    match command_line e with
    | Some _ => Returned false (set_env (fun _ => e) w)
    | None => Returned true (set_env (fun _ => set_command_line (Some []) e) w)
    end.

(** [CommandLine::ForCurrentProcess()->AppendSwitch(switch)]. *)
Definition CommandLine_AppendSwitch (switch : string) : M unit :=
  fun w =>
    let e := record_call (AppendSwitch_call switch) (env w) in
    match command_line e with
    | None => Undefined
    | Some argv =>
        Returned tt (set_env (fun _ => set_command_line (Some (argv ++ [switch])) e) w)
    end.

Definition SetMinLogLevel (level : LogSeverity) : M unit :=
  modify (set_env (fun e =>
    let e := record_call (SetMinLogLevel_call level) e in
    {| thread_pool := thread_pool e; command_line := command_line e;
       min_log_level := level; logging := logging e; log := log e;
       bootstrap := bootstrap e |})).

Definition InitLogging (settings : LoggingSettings) : M bool :=
  fun w =>
    Returned true
      (set_env (fun e =>
         let e := record_call (InitLogging_call settings) e in
         {| thread_pool := thread_pool e; command_line := command_line e;
            min_log_level := min_log_level e; logging := Some settings;
            log := log e; bootstrap := bootstrap e |}) w).

(** [LOG(severity) << message]: written when the severity reaches the
    minimum log level. *)
Definition LOG (severity : LogSeverity) (message : string) : M unit :=
  modify (set_env (fun e =>
    if (min_log_level e <=? severity)%Z
    then {| thread_pool := thread_pool e; command_line := command_line e;
            min_log_level := min_log_level e; logging := logging e;
            log := log e ++ [(severity, message)];
            bootstrap := bootstrap e |}
    else e)).

(** ** The factory *)

Inductive AtExitManager := AtExitManager_new.

(** The members of [QuicTransportFactoryImpl]; the two [unique_ptr]s to
    threads are never null once the constructor has run. *)
Record QuicTransportFactoryImpl := {
  at_exit_manager_ : option AtExitManager;
  io_thread_ : ThreadPtr;
  event_thread_ : ThreadPtr
}.

(** Two factory objects are told apart by their members. *)
#[global] Instance AtExitManager_eq_dec : EqDecision AtExitManager.
Proof. solve_decision. Defined.

#[global] Instance QuicTransportFactoryImpl_eq_dec :
  EqDecision QuicTransportFactoryImpl.
Proof. solve_decision. Defined.

(** The [for] loop of [CreateQuicTransportClient] from index [i] with [n]
    iterations left: each record read through the caller's array gives one
    internal fingerprint.  Reading past the end of the array is
    undefined. *)
Fixpoint translate_from (fingerprints : list owt.CertificateFingerprint)
    (i n : nat) (param : WebTransportParameters)
    : option WebTransportParameters :=
  match n with
  | 0 => Some param
  | S n' =>
      match fingerprints !! i with
      | None => None
      | Some fingerprint =>
          let quic_fingerprint :=
            {| quic.algorithm := quic.kSha256;
               quic.fingerprint := owt.fingerprint fingerprint |} in
          translate_from fingerprints (S i) n' (push_back param quic_fingerprint)
      end
  end.

Definition translate (parameters : Parameters) : option WebTransportParameters :=
  translate_from (server_certificate_fingerprints parameters) 0
    (server_certificate_fingerprints_length parameters)
    {| wt_server_certificate_fingerprints := [] |}.

(** Concrete collaborators for the examples: one certificate and key pair,
    one archive with its password, and one URL that parses. *)
Definition example_chromium_loads (cert key sct : FilePath) : bool :=
  String.eqb cert "cert.pem" && String.eqb key "key.pem" && String.eqb sct "".

Definition example_owt_loads (pfx : FilePath) (password : string) : bool :=
  String.eqb pfx "archive.pfx" && String.eqb password "secret".

Definition example_parse_url (url : string) : option (string * string * Z) :=
  if String.eqb url "https://example.test:9090"
  then Some ("https", "example.test", 9090%Z)
  else None.

(** A process in which no at-exit callback is registered. *)
Definition example_at_exit_callbacks (e : ProcessEnv) : ProcessEnv := e.

(** The factory and the world the constructor makes in a fresh process
    (release build), and that world once the factory is destroyed. *)
Definition example_factory : QuicTransportFactoryImpl :=
  {| at_exit_manager_ := None; io_thread_ := 0; event_thread_ := 1 |}.

Definition example_env : ProcessEnv :=
  {| thread_pool := None;
     command_line := Some ["--quic_default_to_bbr"];
     min_log_level := LOG_WARNING;
     logging := Some {| logging_dest := LOG_TO_STDERR |};
     log := [];
     bootstrap :=
       [CommandLine_Init_call 0;
        AppendSwitch_call "--quic_default_to_bbr";
        SetMinLogLevel_call LOG_WARNING;
        InitLogging_call {| logging_dest := LOG_TO_STDERR |}] |}.

Definition example_world : World :=
  {| threads :=
       [Thread_alive "quic_transport_io_thread" true IO;
        Thread_alive "quic_transport_event_thread" true IO];
     pending := []; heap := []; cells := []; events := [];
     env := example_env |}.

Definition torn_down_world : World :=
  {| threads :=
       [Thread_destroyed; Thread_destroyed];
     pending := []; heap := []; cells := []; events := [];
     env := example_env |}.

(** A caller's record that names SHA-1, and parameters that hold it. *)
Definition sha1_fingerprint : owt.CertificateFingerprint :=
  {| owt.algorithm := "sha-1"; owt.fingerprint := "AA:BB" |}.

Definition sha1_parameters : Parameters :=
  {| server_certificate_fingerprints := [sha1_fingerprint];
     server_certificate_fingerprints_length := 1 |}.

(** Two SHA-256 records, in the order the caller gives them. *)
Definition pinned_parameters : Parameters :=
  {| server_certificate_fingerprints :=
       [{| owt.algorithm := "sha-256"; owt.fingerprint := "12:3D:5B" |};
        {| owt.algorithm := "sha-256"; owt.fingerprint := "7E:BD:E3" |}];
     server_certificate_fingerprints_length := 2 |}.

Definition no_fingerprints : Parameters :=
  {| server_certificate_fingerprints := [];
     server_certificate_fingerprints_length := 0 |}.

(** The server a file-pair creation makes in the example world, and the
    world it leaves. *)
Definition example_server : QuicTransportOwtServerImpl :=
  {| server_port := 9090%Z; server_accepted_origins := [];
     server_proof_source :=
       OfChromium {| chromium_loaded := Some ("cert.pem", "key.pem", "") |};
     server_io_thread := 0; server_event_thread := 1 |}.

Definition example_server_world : World :=
  {| threads := threads example_world; pending := [];
     heap := [(CallerThread, ServerObject example_server)];
     cells := []; events := []; env := example_env |}.

(** That world once the factory is destroyed: the server is still there,
    its two thread pointers dangle. *)
Definition torn_down_server_world : World :=
  {| threads := [Thread_destroyed; Thread_destroyed]; pending := [];
     heap := [(CallerThread, ServerObject example_server)];
     cells := []; events := []; env := example_env |}.

(** A second factory made in the example world, and the world with both. *)
Definition second_factory : QuicTransportFactoryImpl :=
  {| at_exit_manager_ := None; io_thread_ := 2; event_thread_ := 3 |}.

Definition two_factory_world : World :=
  {| threads := threads example_world ++ threads example_world;
     pending := []; heap := []; cells := []; events := [];
     env :=
       {| thread_pool := None;
          command_line :=
            Some ["--quic_default_to_bbr"; "--quic_default_to_bbr"];
          min_log_level := LOG_WARNING;
          logging := Some {| logging_dest := LOG_TO_STDERR |};
          log := [];
          bootstrap := bootstrap example_env ++ bootstrap example_env |} |}.

(** What the loop makes of [sha1_parameters]. *)
Definition sha1_translated : WebTransportParameters :=
  {| wt_server_certificate_fingerprints :=
       [{| quic.algorithm := quic.kSha256; quic.fingerprint := "AA:BB" |}] |}.

Section Factory.

(** Whether the build defines [_DEBUG]. *)
Variable DEBUG : bool.

(** The URL parser: the origin tuple of a URL string, when it parses. *)
Variable parse_url : string -> option (string * string * Z).

(** Whether the certificate material at the given paths loads:
    [net::ProofSourceChromium] from certificate, key and SCT files,
    [ProofSourceOwt] from an archive and its password. *)
Variable chromium_loads : FilePath -> FilePath -> FilePath -> bool.
Variable owt_loads : FilePath -> string -> bool.

(** What the callbacks registered with the process's at-exit manager do
    to the process environment when the manager is destroyed; they belong
    to the libraries. *)
Variable at_exit_callbacks : ProcessEnv -> ProcessEnv.

(** [url::Origin::Create(gurl)]: the tuple of a valid URL, an opaque
    origin otherwise. *)
Definition Origin_Create (url : GURL) : Origin :=
  match parse_url (spec url) with
  | Some (scheme, host, port) => TupleOrigin scheme host port
  | None => OpaqueOrigin
  end.

Definition ProofSourceChromium_Initialize (this : ProofSourceChromium)
    (cert key sct : FilePath) : bool * ProofSourceChromium :=
  if chromium_loads cert key sct
  then (true, {| chromium_loaded := Some (cert, key, sct) |})
  else (false, this).

Definition ProofSourceOwt_Initialize (this : ProofSourceOwt)
    (pfx : FilePath) (password : string) : bool * ProofSourceOwt :=
  if owt_loads pfx password
  then (true, {| owt_loaded := Some (pfx, password) |})
  else (false, this).

(** The body of the lambda posted by [CreateQuicTransportClient], run on
    the thread [self]. *)
Definition run_task (self : ThreadId) (task : Task) : M unit :=
  let url := task_url task in
  let origin := Origin_Create {| spec := url |} in
  do client <- new_ self
    (ClientObject {| client_url := {| spec := url |};
                     client_origin := origin;
                     client_parameters := task_param task;
                     client_io_thread := task_io_thread task;
                     client_event_thread := task_event_thread task |});
  write_cell (task_result task) client ;;
  WaitableEvent_Signal (task_event task).

(** The worker threads run the queued tasks, each on its thread, in the
    order they were posted. *)
Fixpoint run_tasks (q : list (ThreadPtr * Task)) : M unit :=
  match q with
  | [] => ret tt
  | (t, task) :: q' => run_task (WorkerThread t) task ;; run_tasks q'
  end.

Definition run_pending : M unit :=
  fun w => run_tasks (pending w) (set_pending (fun _ => []) w).

(** [event.Wait()]: the caller sleeps while the worker threads run; it
    wakes when the event is signaled (an AUTOMATIC event is reset by the
    wake-up), and never when nothing signals it. *)
Definition WaitableEvent_Wait (e : nat) : M unit :=
  run_pending ;;
  fun w =>
    match events w !! e with
    | None => Undefined
    | Some ev =>
        if signaled ev
        then Returned tt
               match reset_policy ev with
               | AUTOMATIC =>
                   set_events
                     (fun es => <[e := {| reset_policy := AUTOMATIC;
                                          signaled := false |}]> es) w
               | MANUAL => w
               end
        else Blocked w
    end.

Definition Init : M unit :=
  CommandLine_Init 0 ;;
  CommandLine_AppendSwitch "--quic_default_to_bbr" ;;
  SetMinLogLevel (if DEBUG then LOG_INFO else LOG_WARNING) ;;
  let settings := {| logging_dest := LOG_TO_STDERR |} in
  InitLogging settings ;;
  ret tt.

(** [QuicTransportFactoryImpl::QuicTransportFactoryImpl()]. *)
Definition QuicTransportFactoryImpl_ctor : M QuicTransportFactoryImpl :=
  do io_thread <- make_unique_Thread "quic_transport_io_thread";
  do event_thread <- make_unique_Thread "quic_transport_event_thread";
  let options := {| message_pump_type := IO |} in
  Thread_StartWithOptions io_thread options ;;
  Thread_StartWithOptions event_thread options ;;
  Init ;;
  ret {| at_exit_manager_ := None; io_thread_ := io_thread;
         event_thread_ := event_thread |}.

(** [~AtExitManager] runs the registered callbacks. *)
Definition AtExitManager_delete (manager : option AtExitManager) : M unit :=
  match manager with
  | Some _ => modify (set_env at_exit_callbacks)
  | None => ret tt
  end.

(** The defaulted destructor destroys the members in reverse order: the
    event thread, the I/O thread, the at-exit manager.  Both thread
    objects are freed, and with them the factory is gone: it must not be
    called again (a [history] never does), a client creation through it
    runs into the destroyed I/O thread, and every pointer to one of its
    threads, as each endpoint it made holds two, dangles. *)
Definition QuicTransportFactoryImpl_dtor (this : QuicTransportFactoryImpl)
    : M unit :=
  Thread_delete (event_thread_ this) ;;
  Thread_delete (io_thread_ this) ;;
  AtExitManager_delete (at_exit_manager_ this).

Definition InitializeAtExitManager (this : QuicTransportFactoryImpl)
    : QuicTransportFactoryImpl :=
  {| at_exit_manager_ := Some AtExitManager_new;
     io_thread_ := io_thread_ this; event_thread_ := event_thread_ this |}.

(** [QuicTransportFactory::Create()]. *)
Definition Create : M QuicTransportFactoryImpl :=
  ThreadPoolInstance_CreateAndStartWithDefaultParams "quic_transport_thread_pool" ;;
  do factory <- QuicTransportFactoryImpl_ctor;
  ret (InitializeAtExitManager factory).

Definition CreateForTesting : M QuicTransportFactoryImpl :=
  QuicTransportFactoryImpl_ctor.

(** [CreateQuicTransportServer(port, cert_path, key_path, secret_path)]. *)
Definition CreateQuicTransportServer (this : QuicTransportFactoryImpl)
    (port : Z) (cert_path key_path secret_path : string) : M Ptr :=
  let proof_source := {| chromium_loaded := None |} in
  let '(ok, proof_source) :=
    ProofSourceChromium_Initialize proof_source
      (FilePath_FromUTF8Unsafe cert_path)
      (FilePath_FromUTF8Unsafe key_path)
      FilePath_empty in
  if negb ok
  then LOG LOG_ERROR "Failed to initialize proof source." ;; ret nullptr
  else new_ CallerThread
         (ServerObject {| server_port := port;
                          server_accepted_origins := [];
                          server_proof_source := OfChromium proof_source;
                          server_io_thread := io_thread_ this;
                          server_event_thread := event_thread_ this |}).

(** [CreateQuicTransportServer(port, pfx_path, password)]. *)
Definition CreateQuicTransportServer_pfx (this : QuicTransportFactoryImpl)
    (port : Z) (pfx_path password : string) : M Ptr :=
  let proof_source := {| owt_loaded := None |} in
  let '(ok, proof_source) :=
    ProofSourceOwt_Initialize proof_source
      (FilePath_FromUTF8Unsafe pfx_path) password in
  if negb ok
  then LOG LOG_ERROR "Failed to initialize proof source." ;; ret nullptr
  else new_ CallerThread
         (ServerObject {| server_port := port;
                          server_accepted_origins := [];
                          server_proof_source := OfOwt proof_source;
                          server_io_thread := io_thread_ this;
                          server_event_thread := event_thread_ this |}).

(** [CreateQuicTransportClient(url, parameters)]. *)
Definition CreateQuicTransportClient (this : QuicTransportFactoryImpl)
    (url : string) (parameters : Parameters) : M Ptr :=
  do result <- local_cell nullptr;
  match translate parameters with
  | None => undefined
  | Some param =>
      do done <- WaitableEvent_new AUTOMATIC NOT_SIGNALED;
      PostTask (io_thread_ this)
        {| task_url := url; task_param := param;
           task_io_thread := io_thread_ this;
           task_event_thread := event_thread_ this;
           task_result := result; task_event := done |} ;;
      WaitableEvent_Wait done ;;
      read_cell result
  end.

(** [CreateQuicTransportClient(url)]: the array pointer of its
    [Parameters] is left as it was made, the length is set to 0. *)
Definition CreateQuicTransportClient_url (this : QuicTransportFactoryImpl)
    (url : string) : M Ptr :=
  let param := {| server_certificate_fingerprints := [];
                  server_certificate_fingerprints_length := 0 |} in
  CreateQuicTransportClient this url param.


(** ** The worlds and objects the operations leave *)

(** What the loop makes of one record. *)
Definition sha256_entry (r : owt.CertificateFingerprint)
    : quic.CertificateFingerprint :=
  {| quic.algorithm := quic.kSha256; quic.fingerprint := owt.fingerprint r |}.

(** The client the posted task constructs. *)
Definition client_of (this : QuicTransportFactoryImpl) (url : string)
    (param : WebTransportParameters) : QuicTransportOwtClientImpl :=
  {| client_url := {| spec := url |};
     client_origin := Origin_Create {| spec := url |};
     client_parameters := param;
     client_io_thread := io_thread_ this;
     client_event_thread := event_thread_ this |}.

(** The world the call leaves when the I/O thread ran its task. *)
Definition after_client (this : QuicTransportFactoryImpl) (url : string)
    (param : WebTransportParameters) (w : World) : World :=
  {| threads := threads w;
     pending := [];
     heap := heap w ++ [(WorkerThread (io_thread_ this),
                         ClientObject (client_of this url param))];
     cells := cells w ++ [S (length (heap w))];
     events := events w ++ [{| reset_policy := AUTOMATIC; signaled := false |}];
     env := env w |}.

(** The world in which the caller stays blocked: its two locals exist,
    the task was dropped and nothing signals the event. *)
Definition stuck_client (w : World) : World :=
  {| threads := threads w;
     pending := [];
     heap := heap w;
     cells := cells w ++ [nullptr];
     events := events w ++ [{| reset_policy := AUTOMATIC; signaled := false |}];
     env := env w |}.

(** The server either overload constructs around a proof source. *)
Definition server_of (this : QuicTransportFactoryImpl) (port : Z)
    (proof_source : ProofSource) : QuicTransportOwtServerImpl :=
  {| server_port := port;
     server_accepted_origins := [];
     server_proof_source := proof_source;
     server_io_thread := io_thread_ this;
     server_event_thread := event_thread_ this |}.

(** The four bootstrap calls of [Init], as the trace records them. *)
Definition Init_calls : list BootstrapCall :=
  [CommandLine_Init_call 0;
   AppendSwitch_call "--quic_default_to_bbr";
   SetMinLogLevel_call (if DEBUG then LOG_INFO else LOG_WARNING);
   InitLogging_call {| logging_dest := LOG_TO_STDERR |}].

(** The process environment after one run of [Init]. *)
Definition bootstrapped (e : ProcessEnv) : ProcessEnv :=
  {| thread_pool := thread_pool e;
     command_line :=
       Some (match command_line e with
             | Some argv => argv
             | None => []
             end ++ ["--quic_default_to_bbr"]);
     min_log_level := if DEBUG then LOG_INFO else LOG_WARNING;
     logging := Some {| logging_dest := LOG_TO_STDERR |};
     log := log e;
     bootstrap := bootstrap e ++ Init_calls |}.

Definition io_thread_started : Thread :=
  Thread_alive "quic_transport_io_thread" true IO.

Definition event_thread_started : Thread :=
  Thread_alive "quic_transport_event_thread" true IO.

(** The factory the constructor makes in a world with the given threads,
    and the world it leaves. *)
Definition factory_in (w : World) : QuicTransportFactoryImpl :=
  {| at_exit_manager_ := None;
     io_thread_ := length (threads w);
     event_thread_ := S (length (threads w)) |}.

Definition after_ctor (w : World) : World :=
  set_env bootstrapped
    (set_threads
       (fun ts => ts ++ [io_thread_started; event_thread_started]) w).

(** The worlds a process gets to through the factory's operations. *)
Inductive reachable : World -> Prop :=
| reachable_fresh : reachable fresh_world
| reachable_ctor w this w' :
    reachable w ->
    QuicTransportFactoryImpl_ctor w = Returned this w' -> reachable w'
| reachable_Create w this w' :
    reachable w -> Create w = Returned this w' -> reachable w'
| reachable_dtor w this w' :
    reachable w ->
    QuicTransportFactoryImpl_dtor this w = Returned tt w' -> reachable w'
| reachable_server w this port cert_path key_path secret_path p w' :
    reachable w ->
    CreateQuicTransportServer this port cert_path key_path secret_path w
      = Returned p w' ->
    reachable w'
| reachable_server_pfx w this port pfx_path password p w' :
    reachable w ->
    CreateQuicTransportServer_pfx this port pfx_path password w
      = Returned p w' ->
    reachable w'
| reachable_client w this url parameters p w' :
    reachable w ->
    CreateQuicTransportClient this url parameters w = Returned p w' ->
    reachable w'.

(** ** Histories of a process

    The factories that are alive and the world they share, after any
    sequence of the factory's operations.  Only a live factory is called;
    its destructor takes it off the list. *)
Inductive history : list QuicTransportFactoryImpl -> World -> Prop :=
| history_fresh : history [] fresh_world
| history_CreateForTesting fs w this w' :
    history fs w ->
    CreateForTesting w = Returned this w' -> history (this :: fs) w'
| history_Create fs w this w' :
    history fs w ->
    Create w = Returned this w' -> history (this :: fs) w'
| history_dtor fs w this w' :
    history fs w -> this ∈ fs ->
    QuicTransportFactoryImpl_dtor this w = Returned tt w' ->
    history (filter (fun f => f <> this) fs) w'
| history_server fs w this port cert_path key_path secret_path p w' :
    history fs w -> this ∈ fs ->
    CreateQuicTransportServer this port cert_path key_path secret_path w
      = Returned p w' ->
    history fs w'
| history_server_pfx fs w this port pfx_path password p w' :
    history fs w -> this ∈ fs ->
    CreateQuicTransportServer_pfx this port pfx_path password w
      = Returned p w' ->
    history fs w'
| history_client fs w this url parameters p w' :
    history fs w -> this ∈ fs ->
    CreateQuicTransportClient this url parameters w = Returned p w' ->
    history fs w'.

(** An endpoint was made where the factory makes such endpoints, a server
    by the caller and a client on the I/O thread it holds, and it was
    handed two different thread pointers. *)
Definition endpoint_ok (x : ThreadId * Object) : Prop :=
  match x.2 with
  | ServerObject s =>
      x.1 = CallerThread
      /\ server_io_thread s <> server_event_thread s
  | ClientObject c =>
      x.1 = WorkerThread (client_io_thread c)
      /\ client_io_thread c <> client_event_thread c
  end.

(** Both threads of a factory are running, with an I/O message pump. *)
Definition factory_live (w : World) (f : QuicTransportFactoryImpl) : Prop :=
  threads w !! io_thread_ f = Some io_thread_started
  /\ threads w !! event_thread_ f = Some event_thread_started.

(** No thread belongs to two factories. *)
Definition threads_apart (f g : QuicTransportFactoryImpl) : Prop :=
  io_thread_ f <> io_thread_ g /\ io_thread_ f <> event_thread_ g
  /\ event_thread_ f <> io_thread_ g /\ event_thread_ f <> event_thread_ g.

Definition consistent (fs : list QuicTransportFactoryImpl) (w : World)
    : Prop :=
  pending w = []
  /\ (forall f, f ∈ fs -> factory_live w f)
  /\ (forall f g, f ∈ fs -> g ∈ fs -> f <> g -> threads_apart f g)
  /\ Forall endpoint_ok (heap w).

(** ** Lists that grow at the end *)

Lemma lookup_snoc {A} (l : list A) (x : A) : (l ++ [x]) !! length l = Some x.
Proof. induction l as [|a l IH]; simpl; [reflexivity | exact IH]. Qed.

Lemma insert_snoc {A} (l : list A) (x y : A) :
  <[length l := y]> (l ++ [x]) = l ++ [y].
Proof. induction l as [|a l IH]; simpl; [reflexivity | now rewrite IH]. Qed.

Lemma lookup_snoc_old {A} (l : list A) (x : A) (i : nat) (a : A) :
  l !! i = Some a -> (l ++ [x]) !! i = Some a.
Proof. intros H. now apply lookup_app_l_Some. Qed.

(** ** The fingerprint loop *)

Lemma translate_from_ok fingerprints n : forall i param,
  i + n <= length fingerprints ->
  translate_from fingerprints i n param =
    Some {| wt_server_certificate_fingerprints :=
              wt_server_certificate_fingerprints param
              ++ (sha256_entry <$> take n (drop i fingerprints)) |}.
Proof.
  induction n as [|n IH]; intros i param Hlen.
  - cbn. rewrite app_nil_r. now destruct param.
  - cbn [translate_from].
    destruct (fingerprints !! i) as [r|] eqn:Hr.
    + rewrite IH by lia. rewrite (drop_S _ _ _ Hr).
      cbn [take fmap list_fmap push_back wt_server_certificate_fingerprints].
      rewrite <- app_assoc. reflexivity.
    + apply lookup_ge_None in Hr. lia.
Qed.

Lemma translate_ok parameters :
  server_certificate_fingerprints_length parameters
    <= length (server_certificate_fingerprints parameters) ->
  translate parameters =
    Some {| wt_server_certificate_fingerprints :=
              sha256_entry <$>
                take (server_certificate_fingerprints_length parameters)
                     (server_certificate_fingerprints parameters) |}.
Proof.
  intros H. unfold translate. rewrite translate_from_ok by lia.
  now rewrite drop_0.
Qed.


(** Past the end of the caller's array the loop reads nothing it may. *)
Lemma translate_from_out_of_range fingerprints n : forall i param,
  i <= length fingerprints ->
  length fingerprints < i + n ->
  translate_from fingerprints i n param = None.
Proof.
  induction n as [|n IH]; intros i param Hi Hlen; [lia |].
  cbn [translate_from].
  destruct (fingerprints !! i) as [r|] eqn:Hr; [| reflexivity].
  apply lookup_lt_Some in Hr. apply IH; lia.
Qed.

(** ** What [CreateQuicTransportClient] does *)

(** Runs the calls of a body on a world given by its fields. *)
Ltac run_body :=
  cbv beta iota zeta delta
    [CreateQuicTransportClient bind ret local_cell WaitableEvent_new PostTask
     WaitableEvent_Wait run_pending run_tasks run_task new_ write_cell
     read_cell WaitableEvent_Signal undefined modify
     set_threads set_pending set_heap set_cells set_events set_env
     threads pending heap cells events env
     task_url task_param task_io_thread task_event_thread task_result
     task_event reset_policy signaled];
  cbn [app].

Ltac run_step :=
  first [ rewrite lookup_snoc | rewrite insert_snoc ]; run_body.

Lemma CreateQuicTransportClient_running this url parameters w th param :
  pending w = [] ->
  threads w !! io_thread_ this = Some th ->
  thread_running th = true ->
  translate parameters = Some param ->
  CreateQuicTransportClient this url parameters w =
    Returned (S (length (heap w))) (after_client this url param w).
Proof.
  destruct w as [ths q hp cs es e]. cbn [pending threads].
  intros -> Hth Hrun Htr.
  destruct th as [name running pump|]; [| discriminate].
  cbn in Hrun. subst running. unfold after_client.
  run_body. rewrite Htr, Hth. run_body.
  repeat run_step. reflexivity.
Qed.

(** A thread object that was never started takes no task: the caller
    waits for a signal nobody gives. *)
Lemma CreateQuicTransportClient_not_started this url parameters w name pump param :
  pending w = [] ->
  threads w !! io_thread_ this = Some (Thread_alive name false pump) ->
  translate parameters = Some param ->
  CreateQuicTransportClient this url parameters w = Blocked (stuck_client w).
Proof.
  destruct w as [ths q hp cs es e]. cbn [pending threads].
  intros -> Hth Htr. unfold stuck_client.
  run_body. rewrite Htr, Hth. run_body.
  repeat run_step. reflexivity.
Qed.

(** Through a destroyed I/O thread the call is undefined, whatever its
    arguments. *)
Lemma CreateQuicTransportClient_destroyed this url parameters w :
  threads w !! io_thread_ this = Some Thread_destroyed ->
  CreateQuicTransportClient this url parameters w = Undefined.
Proof.
  destruct w as [ths q hp cs es e]. cbn [threads]. intros Hth.
  run_body. destruct (translate parameters) as [param|]; [| reflexivity].
  run_body. rewrite Hth. reflexivity.
Qed.

(** ** What [CreateQuicTransportServer] does *)

Lemma deref_new (w : World) (self : ThreadId) (o : Object) :
  deref (set_heap (fun h => h ++ [(self, o)]) w) (S (length (heap w)))
    = Some (self, o).
Proof. destruct w; cbn. apply lookup_snoc. Qed.

Lemma CreateQuicTransportServer_loaded this port cert_path key_path
    secret_path w :
  chromium_loads cert_path key_path FilePath_empty = true ->
  CreateQuicTransportServer this port cert_path key_path secret_path w =
    Returned (S (length (heap w)))
      (set_heap
         (fun h => h ++ [(CallerThread,
            ServerObject (server_of this port
              (OfChromium {| chromium_loaded :=
                  Some (cert_path, key_path, FilePath_empty) |})))]) w).
Proof.
  intros H.
  unfold CreateQuicTransportServer, ProofSourceChromium_Initialize,
    FilePath_FromUTF8Unsafe.
  rewrite H. reflexivity.
Qed.

Lemma CreateQuicTransportServer_failed this port cert_path key_path
    secret_path w :
  chromium_loads cert_path key_path FilePath_empty = false ->
  exists w',
    CreateQuicTransportServer this port cert_path key_path secret_path w =
      Returned nullptr w'
    /\ threads w' = threads w /\ pending w' = pending w
    /\ heap w' = heap w /\ cells w' = cells w /\ events w' = events w.
Proof.
  intros H.
  unfold CreateQuicTransportServer, ProofSourceChromium_Initialize,
    FilePath_FromUTF8Unsafe.
  rewrite H. cbn. eexists. split; [reflexivity |]. now destruct w.
Qed.

Lemma CreateQuicTransportServer_pfx_loaded this port pfx_path password w :
  owt_loads pfx_path password = true ->
  CreateQuicTransportServer_pfx this port pfx_path password w =
    Returned (S (length (heap w)))
      (set_heap
         (fun h => h ++ [(CallerThread,
            ServerObject (server_of this port
              (OfOwt {| owt_loaded := Some (pfx_path, password) |})))]) w).
Proof.
  intros H.
  unfold CreateQuicTransportServer_pfx, ProofSourceOwt_Initialize,
    FilePath_FromUTF8Unsafe.
  rewrite H. reflexivity.
Qed.

Lemma CreateQuicTransportServer_pfx_failed this port pfx_path password w :
  owt_loads pfx_path password = false ->
  exists w',
    CreateQuicTransportServer_pfx this port pfx_path password w =
      Returned nullptr w'
    /\ threads w' = threads w /\ pending w' = pending w
    /\ heap w' = heap w /\ cells w' = cells w /\ events w' = events w.
Proof.
  intros H.
  unfold CreateQuicTransportServer_pfx, ProofSourceOwt_Initialize,
    FilePath_FromUTF8Unsafe.
  rewrite H. cbn. eexists. split; [reflexivity |]. now destruct w.
Qed.

(** C3: in either overload of [CreateQuicTransportServer], when the proof
    source's [Initialize] answers false the call returns [nullptr] and the
    heap holds no new object; when it answers true the call returns a
    non-null pointer to a new server that owns the proof source just
    initialised. *)
Theorem C3_server_exactly_when_proof_source_initializes
    (this : QuicTransportFactoryImpl) (port : Z)
    (cert_path key_path secret_path pfx_path password : string) (w : World) :
  (forall ps,
      ProofSourceChromium_Initialize {| chromium_loaded := None |}
        (FilePath_FromUTF8Unsafe cert_path)
        (FilePath_FromUTF8Unsafe key_path) FilePath_empty = (false, ps) ->
      exists w',
        CreateQuicTransportServer this port cert_path key_path secret_path w
          = Returned nullptr w'
        /\ heap w' = heap w)
  /\ (forall ps,
      ProofSourceChromium_Initialize {| chromium_loaded := None |}
        (FilePath_FromUTF8Unsafe cert_path)
        (FilePath_FromUTF8Unsafe key_path) FilePath_empty = (true, ps) ->
      exists p w',
        CreateQuicTransportServer this port cert_path key_path secret_path w
          = Returned p w'
        /\ p <> nullptr
        /\ heap w' = heap w ++ [(CallerThread,
               ServerObject (server_of this port (OfChromium ps)))]
        /\ deref w' p = Some (CallerThread,
               ServerObject (server_of this port (OfChromium ps)))
        /\ chromium_loaded ps <> None)
  /\ (forall ps,
      ProofSourceOwt_Initialize {| owt_loaded := None |}
        (FilePath_FromUTF8Unsafe pfx_path) password = (false, ps) ->
      exists w',
        CreateQuicTransportServer_pfx this port pfx_path password w
          = Returned nullptr w'
        /\ heap w' = heap w)
  /\ (forall ps,
      ProofSourceOwt_Initialize {| owt_loaded := None |}
        (FilePath_FromUTF8Unsafe pfx_path) password = (true, ps) ->
      exists p w',
        CreateQuicTransportServer_pfx this port pfx_path password w
          = Returned p w'
        /\ p <> nullptr
        /\ heap w' = heap w ++ [(CallerThread,
               ServerObject (server_of this port (OfOwt ps)))]
        /\ deref w' p = Some (CallerThread,
               ServerObject (server_of this port (OfOwt ps)))
        /\ owt_loaded ps <> None).
Proof.
  unfold ProofSourceChromium_Initialize, ProofSourceOwt_Initialize,
    FilePath_FromUTF8Unsafe.
  repeat split.
  - intros ps H.
    destruct (chromium_loads cert_path key_path FilePath_empty) eqn:E;
      [discriminate |].
    destruct (CreateQuicTransportServer_failed this port cert_path key_path
                secret_path w E) as (w' & Hr & _ & _ & Hh & _).
    exists w'. auto.
  - intros ps H.
    destruct (chromium_loads cert_path key_path FilePath_empty) eqn:E;
      [| discriminate].
    injection H as <-.
    eexists _, _. split; [apply CreateQuicTransportServer_loaded, E |].
    split; [discriminate |]. split; [now destruct w |].
    split; [apply deref_new | discriminate].
  - intros ps H.
    destruct (owt_loads pfx_path password) eqn:E; [discriminate |].
    destruct (CreateQuicTransportServer_pfx_failed this port pfx_path
                password w E) as (w' & Hr & _ & _ & Hh & _).
    exists w'. auto.
  - intros ps H.
    destruct (owt_loads pfx_path password) eqn:E; [| discriminate].
    injection H as <-.
    eexists _, _. split; [apply CreateQuicTransportServer_pfx_loaded, E |].
    split; [discriminate |]. split; [now destruct w |].
    split; [apply deref_new | discriminate].
Qed.

(** C10: the file-pair overload of [CreateQuicTransportServer] does not
    look at [secret_path]: two calls that differ only there have the same
    outcome, and the proof source is initialised with the empty
    [FilePath()] where the secret would go. *)
Theorem C10_secret_path_is_ignored
    (this : QuicTransportFactoryImpl) (port : Z)
    (cert_path key_path secret_path1 secret_path2 : string) (w : World) :
  exists p w',
    CreateQuicTransportServer this port cert_path key_path secret_path1 w
      = Returned p w'
    /\ CreateQuicTransportServer this port cert_path key_path secret_path2 w
      = Returned p w'
    /\ (p <> nullptr <->
        chromium_loads (FilePath_FromUTF8Unsafe cert_path)
          (FilePath_FromUTF8Unsafe key_path) FilePath_empty = true)
    /\ (p <> nullptr ->
        deref w' p = Some (CallerThread,
          ServerObject (server_of this port
            (OfChromium {| chromium_loaded :=
               Some (FilePath_FromUTF8Unsafe cert_path,
                     FilePath_FromUTF8Unsafe key_path, FilePath_empty) |})))).
Proof.
  unfold FilePath_FromUTF8Unsafe.
  destruct (chromium_loads cert_path key_path FilePath_empty) eqn:E.
  - eexists _, _.
    split; [apply CreateQuicTransportServer_loaded, E |].
    split; [apply CreateQuicTransportServer_loaded, E |].
    split; [split; [reflexivity | discriminate] |].
    intros _. apply deref_new.
  - destruct (CreateQuicTransportServer_failed this port cert_path key_path
                secret_path1 w E) as (w' & Hr & _).
    exists nullptr, w'. split; [exact Hr |].
    split.
    + unfold CreateQuicTransportServer, ProofSourceChromium_Initialize,
        FilePath_FromUTF8Unsafe in *.
      rewrite E in *. exact Hr.
    + split; [split; [intros H; now contradiction H | discriminate] |].
      intros H. now contradiction H.
Qed.

(** C2, in the form the code satisfies: both overloads of
    [CreateQuicTransportServer] build the server with [new] on the calling
    thread. The call posts no task, makes no event and no result slot, and
    leaves the threads as they were; the server it returns is recorded as
    constructed on the calling thread and holds the factory's two thread
    pointers. *)
Theorem C2_server_is_constructed_on_the_calling_thread
    (this : QuicTransportFactoryImpl) (port : Z)
    (cert_path key_path secret_path pfx_path password : string) (w : World) :
  (exists p w',
      CreateQuicTransportServer this port cert_path key_path secret_path w
        = Returned p w'
      /\ threads w' = threads w /\ pending w' = pending w
      /\ cells w' = cells w /\ events w' = events w
      /\ (p <> nullptr ->
          exists s, deref w' p = Some (CallerThread, ServerObject s)
                    /\ server_io_thread s = io_thread_ this
                    /\ server_event_thread s = event_thread_ this))
  /\ (exists p w',
      CreateQuicTransportServer_pfx this port pfx_path password w
        = Returned p w'
      /\ threads w' = threads w /\ pending w' = pending w
      /\ cells w' = cells w /\ events w' = events w
      /\ (p <> nullptr ->
          exists s, deref w' p = Some (CallerThread, ServerObject s)
                    /\ server_io_thread s = io_thread_ this
                    /\ server_event_thread s = event_thread_ this)).
Proof.
  split.
  - destruct (chromium_loads cert_path key_path FilePath_empty) eqn:E.
    + eexists _, _.
      split; [apply CreateQuicTransportServer_loaded, E |].
      destruct w; cbn. repeat (split; [reflexivity |]).
      intros _. eexists. split; [apply lookup_snoc | split; reflexivity].
    + destruct (CreateQuicTransportServer_failed this port cert_path
                  key_path secret_path w E)
        as (w' & Hr & Ht & Hp & _ & Hc & He).
      exists nullptr, w'. repeat (split; [assumption |]).
      intros H. now contradiction H.
  - destruct (owt_loads pfx_path password) eqn:E.
    + eexists _, _.
      split; [apply CreateQuicTransportServer_pfx_loaded, E |].
      destruct w; cbn. repeat (split; [reflexivity |]).
      intros _. eexists. split; [apply lookup_snoc | split; reflexivity].
    + destruct (CreateQuicTransportServer_pfx_failed this port pfx_path
                  password w E)
        as (w' & Hr & Ht & Hp & _ & Hc & He).
      exists nullptr, w'. repeat (split; [assumption |]).
      intros H. now contradiction H.
Qed.

(** ** Clients *)

Lemma deref_after_client this url param w :
  deref (after_client this url param w) (S (length (heap w)))
    = Some (WorkerThread (io_thread_ this),
            ClientObject (client_of this url param)).
Proof. cbn. apply lookup_snoc. Qed.

(** A call that returns found the I/O thread running, and returns the
    client its task constructed. *)
Lemma CreateQuicTransportClient_returned this url parameters w p w' :
  pending w = [] ->
  CreateQuicTransportClient this url parameters w = Returned p w' ->
  exists th param,
    threads w !! io_thread_ this = Some th
    /\ thread_running th = true
    /\ translate parameters = Some param
    /\ p = S (length (heap w))
    /\ w' = after_client this url param w.
Proof.
  intros Hidle Hret.
  destruct (translate parameters) as [param|] eqn:Htr.
  - destruct (threads w !! io_thread_ this) as [th|] eqn:Hth.
    + destruct th as [name [|] pump|].
      * rewrite (CreateQuicTransportClient_running _ _ _ _ _ _ Hidle Hth
                   eq_refl Htr) in Hret.
        injection Hret as <- <-. eauto 10.
      * rewrite (CreateQuicTransportClient_not_started _ _ _ _ _ _ _ Hidle Hth Htr)
          in Hret.
        discriminate.
      * rewrite (CreateQuicTransportClient_destroyed _ _ _ _ Hth) in Hret.
        discriminate.
    + destruct w as [ths q hp cs es e]. cbn [threads] in Hth.
      revert Hret. run_body. rewrite Htr, Hth. discriminate.
  - destruct w as [ths q hp cs es e].
    revert Hret. run_body. rewrite Htr. discriminate.
Qed.

(** After the destructor every pointer to one of the factory's two
    threads dangles. *)
Lemma Thread_delete_destroys (t : ThreadPtr) (w w' : World) :
  Thread_delete t w = Returned tt w' ->
  threads w' !! t = Some Thread_destroyed
  /\ (forall t', threads w !! t' = Some Thread_destroyed ->
                 threads w' !! t' = Some Thread_destroyed)
  /\ pending w' = filter (fun x => x.1 <> t) (pending w)
  /\ heap w' = heap w /\ cells w' = cells w /\ events w' = events w
  /\ env w' = env w.
Proof.
  unfold Thread_delete.
  destruct (threads w !! t) as [[name running pump|]|] eqn:Hth;
    try discriminate.
  intros H. injection H as <-. destruct w as [ths q hp cs es e].
  cbn in *. unfold ThreadPtr in *.
  split; [apply list_lookup_insert_eq; eapply lookup_lt_Some; exact Hth |].
  split; [| repeat split].
  intros t' Ht'. destruct (decide (t = t')) as [<- | Hne].
  - rewrite Hth in Ht'. discriminate.
  - now rewrite list_lookup_insert_ne.
Qed.

Lemma AtExitManager_delete_env manager (w w' : World) :
  AtExitManager_delete manager w = Returned tt w' ->
  threads w' = threads w /\ pending w' = pending w /\ heap w' = heap w
  /\ cells w' = cells w /\ events w' = events w
  /\ env w' = match manager with
              | Some _ => at_exit_callbacks (env w)
              | None => env w
              end.
Proof.
  destruct manager as [m|]; intros H; injection H as <-;
    destruct w; cbn; repeat split.
Qed.

Lemma QuicTransportFactoryImpl_dtor_destroys_io this (w w' : World) :
  QuicTransportFactoryImpl_dtor this w = Returned tt w' ->
  threads w' !! io_thread_ this = Some Thread_destroyed.
Proof.
  unfold QuicTransportFactoryImpl_dtor, bind.
  destruct (Thread_delete (event_thread_ this) w) as [[] w1| |] eqn:E1;
    try discriminate.
  destruct (Thread_delete (io_thread_ this) w1) as [[] w2| |] eqn:E2;
    try discriminate.
  intros H. apply AtExitManager_delete_env in H as (Ht & _).
  apply Thread_delete_destroys in E2 as (Hio & _). now rewrite Ht.
Qed.


(** C5: the fingerprint translation of [CreateQuicTransportClient] is a
    function of the caller's list alone and keeps its order: for a list
    of [n] records it gives exactly [n] entries, the digest of the [i]-th
    entry is the [fingerprint] of the [i]-th record, and the client a call
    returns holds exactly this configuration. *)
Theorem C5_fingerprints_keep_count_and_order
    (this : QuicTransportFactoryImpl) (url : string)
    (parameters : Parameters) (w : World) :
  server_certificate_fingerprints_length parameters
    = length (server_certificate_fingerprints parameters) ->
  exists param,
    translate parameters = Some param
    /\ length (wt_server_certificate_fingerprints param)
         = length (server_certificate_fingerprints parameters)
    /\ (forall i r,
          server_certificate_fingerprints parameters !! i = Some r ->
          exists e,
            wt_server_certificate_fingerprints param !! i = Some e
            /\ quic.fingerprint e = owt.fingerprint r)
    /\ (forall p w',
          pending w = [] ->
          CreateQuicTransportClient this url parameters w = Returned p w' ->
          exists self c,
            deref w' p = Some (self, ClientObject c)
            /\ client_parameters c = param).
Proof.
  intros Hlen.
  assert (Hle : server_certificate_fingerprints_length parameters
                <= length (server_certificate_fingerprints parameters)) by lia.
  pose proof (translate_ok parameters Hle) as Htr.
  rewrite Hlen, firstn_all in Htr.
  eexists. split; [exact Htr |]. cbn.
  split; [apply length_fmap |].
  split.
  - intros i r Hr. exists (sha256_entry r).
    rewrite list_lookup_fmap, Hr. split; reflexivity.
  - intros p w' Hidle Hret.
    destruct (CreateQuicTransportClient_returned _ _ _ _ _ _ Hidle Hret)
      as (th & param & _ & _ & Hp & -> & ->).
    rewrite Htr in Hp. injection Hp as <-.
    eexists _, _. split; [apply deref_after_client | reflexivity].
Qed.

(** C4: [CreateQuicTransportClient(url)] has the outcome of
    [CreateQuicTransportClient(url, parameters)] for every [parameters]
    whose fingerprint length is 0: the verification configuration is
    empty in both, and a client either call returns holds no
    fingerprint. *)
Theorem C4_one_argument_form_is_the_empty_list_form
    (this : QuicTransportFactoryImpl) (url : string)
    (parameters : Parameters) (w : World) :
  server_certificate_fingerprints_length parameters = 0 ->
  CreateQuicTransportClient_url this url w
    = CreateQuicTransportClient this url parameters w
  /\ translate parameters = Some {| wt_server_certificate_fingerprints := [] |}
  /\ (forall p w',
        pending w = [] ->
        CreateQuicTransportClient this url parameters w = Returned p w' ->
        exists self c,
          deref w' p = Some (self, ClientObject c)
          /\ wt_server_certificate_fingerprints (client_parameters c) = []).
Proof.
  intros Hzero.
  assert (Htr : translate parameters
                = Some {| wt_server_certificate_fingerprints := [] |}).
  { unfold translate. rewrite Hzero. reflexivity. }
  split; [| split; [exact Htr |]].
  - unfold CreateQuicTransportClient_url, CreateQuicTransportClient.
    rewrite Htr. reflexivity.
  - intros p w' Hidle Hret.
    destruct (CreateQuicTransportClient_returned _ _ _ _ _ _ Hidle Hret)
      as (th & param & _ & _ & Hp & -> & ->).
    rewrite Htr in Hp. injection Hp as <-.
    eexists _, _. split; [apply deref_after_client | reflexivity].
Qed.

(** C6, in the form the code satisfies: the factory reports a failure as a
    bare null pointer and checks nothing about the URL. A server whose proof
    source does not initialise yields [nullptr] from either overload; a
    client is constructed for every URL string once the I/O thread runs the
    task, with the origin [Origin::Create] makes of it, which is an opaque
    origin when the URL does not parse. *)
Theorem C6_null_for_server_failure_client_for_any_url
    (this : QuicTransportFactoryImpl) (port : Z)
    (cert_path key_path secret_path pfx_path password url : string)
    (parameters : Parameters) (w : World) (th : Thread)
    (param : WebTransportParameters) :
  pending w = [] ->
  threads w !! io_thread_ this = Some th ->
  thread_running th = true ->
  translate parameters = Some param ->
  (chromium_loads cert_path key_path FilePath_empty = false ->
   exists w',
     CreateQuicTransportServer this port cert_path key_path secret_path w
       = Returned nullptr w')
  /\ (owt_loads pfx_path password = false ->
      exists w',
        CreateQuicTransportServer_pfx this port pfx_path password w
          = Returned nullptr w')
  /\ (exists p w' c,
        CreateQuicTransportClient this url parameters w = Returned p w'
        /\ p <> nullptr
        /\ deref w' p = Some (WorkerThread (io_thread_ this), ClientObject c)
        /\ client_url c = {| spec := url |}
        /\ client_origin c = Origin_Create {| spec := url |}
        /\ (parse_url url = None -> client_origin c = OpaqueOrigin)).
Proof.
  intros Hidle Hth Hrun Htr.
  split; [| split].
  - intros E.
    destruct (CreateQuicTransportServer_failed this port cert_path key_path
                secret_path w E) as (w' & Hr & _).
    eauto.
  - intros E.
    destruct (CreateQuicTransportServer_pfx_failed this port pfx_path
                password w E) as (w' & Hr & _).
    eauto.
  - eexists _, _, _.
    split; [apply (CreateQuicTransportClient_running _ _ _ _ _ _ Hidle Hth Hrun Htr) |].
    split; [discriminate |].
    split; [apply deref_after_client |].
    split; [reflexivity |]. split; [reflexivity |].
    intros Hp. cbn. unfold Origin_Create. cbn. now rewrite Hp.
Qed.

(** C7, in the form the code satisfies: [CreateQuicTransportClient] never
    looks at what [PostTask] answers and has no error to return.  It posts
    the task and waits on the event: on a factory whose I/O thread is
    running the call returns the client the task constructed, and whenever
    it returns the result is a non-null pointer.  The threads are torn
    down by the factory's destructor alone, which destroys them; a call
    after that goes through the destroyed I/O thread and is undefined. *)
Theorem C7_client_creation_has_no_fail_fast_path
    (this : QuicTransportFactoryImpl) (url : string)
    (parameters : Parameters) (w : World) (th : Thread)
    (param : WebTransportParameters) (w_destroyed : World) :
  pending w = [] ->
  threads w !! io_thread_ this = Some th ->
  thread_running th = true ->
  translate parameters = Some param ->
  QuicTransportFactoryImpl_dtor this w = Returned tt w_destroyed ->
  (exists p w',
      CreateQuicTransportClient this url parameters w = Returned p w'
      /\ p <> nullptr
      /\ deref w' p = Some (WorkerThread (io_thread_ this),
                            ClientObject (client_of this url param)))
  /\ threads w_destroyed !! io_thread_ this = Some Thread_destroyed
  /\ CreateQuicTransportClient this url parameters w_destroyed = Undefined
  /\ (forall w2 url2 parameters2 p w3,
        pending w2 = [] ->
        CreateQuicTransportClient this url2 parameters2 w2 = Returned p w3 ->
        p <> nullptr
        /\ exists th2, threads w2 !! io_thread_ this = Some th2
                       /\ thread_running th2 = true).
Proof.
  intros Hidle Hth Hrun Htr Hd.
  assert (Hgone : threads w_destroyed !! io_thread_ this
                  = Some Thread_destroyed).
  { apply QuicTransportFactoryImpl_dtor_destroys_io in Hd. exact Hd. }
  split.
  { eexists _, _.
    split; [apply (CreateQuicTransportClient_running _ _ _ _ _ _ Hidle Hth
                     Hrun Htr) |].
    split; [discriminate | apply deref_after_client]. }
  split; [exact Hgone |].
  split; [now apply CreateQuicTransportClient_destroyed |].
  intros w2 url2 parameters2 p w3 Hidle2 Hret.
  destruct (CreateQuicTransportClient_returned _ _ _ _ _ _ Hidle2 Hret)
    as (th2 & param2 & Hth2 & Hrun2 & _ & -> & _).
  split; [discriminate |]. eauto.
Qed.

(** ** Construction of the factory *)

Lemma snoc2 {A} (l : list A) (x z : A) : l ++ [x; z] = (l ++ [x]) ++ [z].
Proof. now rewrite <- app_assoc. Qed.

Lemma lookup_snoc2_fst {A} (l : list A) (x z : A) :
  ((l ++ [x]) ++ [z]) !! length l = Some x.
Proof. apply lookup_snoc_old, lookup_snoc. Qed.

Lemma insert_snoc2_fst {A} (l : list A) (x y z : A) :
  <[length l := y]> ((l ++ [x]) ++ [z]) = (l ++ [y]) ++ [z].
Proof.
  rewrite insert_app_l by (rewrite length_app; simpl; lia).
  now rewrite insert_snoc.
Qed.

Lemma lookup_snoc2_snd {A} (l : list A) (x x' z : A) :
  ((l ++ [x]) ++ [z]) !! length (l ++ [x']) = Some z.
Proof.
  replace (length (l ++ [x'])) with (length (l ++ [x]))
    by (rewrite !length_app; reflexivity).
  apply lookup_snoc.
Qed.

Lemma insert_snoc2_snd {A} (l : list A) (x x' z z' : A) :
  <[length (l ++ [x']) := z']> ((l ++ [x]) ++ [z]) = (l ++ [x]) ++ [z'].
Proof.
  replace (length (l ++ [x'])) with (length (l ++ [x]))
    by (rewrite !length_app; reflexivity).
  apply insert_snoc.
Qed.

Lemma Init_runs (w : World) :
  Init w = Returned tt (set_env bootstrapped w).
Proof.
  destruct w as [ths q hp cs es [tp cl lvl lg lo bs]].
  unfold Init, bind, CommandLine_Init, CommandLine_AppendSwitch,
    SetMinLogLevel, InitLogging, modify, ret, set_env, set_command_line,
    record_call, bootstrapped, Init_calls.
  destruct cl as [argv|]; cbn; rewrite <- ?app_assoc; reflexivity.
Qed.

Lemma QuicTransportFactoryImpl_ctor_runs (w : World) :
  QuicTransportFactoryImpl_ctor w = Returned (factory_in w) (after_ctor w).
Proof.
  destruct w as [ths q hp cs es e].
  unfold QuicTransportFactoryImpl_ctor, bind, make_unique_Thread,
    Thread_StartWithOptions.
  cbv beta iota delta [threads set_threads message_pump_type].
  rewrite lookup_snoc2_fst.
  cbv beta iota delta [threads set_threads].
  rewrite insert_snoc2_fst, lookup_snoc2_snd.
  cbv beta iota delta [threads set_threads].
  rewrite insert_snoc2_snd, Init_runs.
  unfold ret, factory_in, after_ctor, set_env, set_threads.
  cbv beta iota delta [threads pending heap cells events env].
  rewrite <- app_assoc, length_app, Nat.add_1_r. reflexivity.
Qed.

Lemma Create_runs (w : World) :
  exists w0,
    Create w = Returned (InitializeAtExitManager (factory_in w)) (after_ctor w0)
    /\ threads w0 = threads w /\ pending w0 = pending w
    /\ heap w0 = heap w
    /\ bootstrap (env w0) = bootstrap (env w)
    /\ command_line (env w0) = command_line (env w).
Proof.
  exists (set_env (fun e =>
    {| thread_pool := Some "quic_transport_thread_pool";
       command_line := command_line e; min_log_level := min_log_level e;
       logging := logging e; log := log e; bootstrap := bootstrap e |}) w).
  unfold Create, bind, ThreadPoolInstance_CreateAndStartWithDefaultParams,
    modify.
  rewrite QuicTransportFactoryImpl_ctor_runs.
  destruct w; cbn. repeat split; reflexivity.
Qed.


(** C9, in the form the code satisfies: the bootstrap is not guarded. Every
    construction of a factory runs [Init] again: the same four calls are
    made once more, the switch is appended to the process command line once
    more, and the log level and logging destination are set again to the
    same values; a second construction therefore leaves the logging settings
    of the first in place and lengthens the command line. *)
Theorem C9_every_construction_runs_the_bootstrap_again (w : World) :
  exists this1 w1 this2 w2,
    QuicTransportFactoryImpl_ctor w = Returned this1 w1
    /\ QuicTransportFactoryImpl_ctor w1 = Returned this2 w2
    /\ bootstrap (env w1) = bootstrap (env w) ++ Init_calls
    /\ bootstrap (env w2) = bootstrap (env w1) ++ Init_calls
    /\ min_log_level (env w2) = min_log_level (env w1)
    /\ logging (env w2) = logging (env w1)
    /\ (exists argv,
          command_line (env w1) = Some argv
          /\ command_line (env w2) = Some (argv ++ ["--quic_default_to_bbr"]))
    /\ (exists this3 w3,
          Create w = Returned this3 w3
          /\ bootstrap (env w3) = bootstrap (env w) ++ Init_calls).
Proof.
  exists (factory_in w), (after_ctor w),
    (factory_in (after_ctor w)), (after_ctor (after_ctor w)).
  split; [apply QuicTransportFactoryImpl_ctor_runs |].
  split; [apply QuicTransportFactoryImpl_ctor_runs |].
  destruct (Create_runs w) as (w0 & Hcreate & _ & _ & _ & Hb & _).
  destruct w as [ths q hp cs es e]. cbn.
  repeat (split; [reflexivity |]).
  split; [eexists; split; reflexivity |].
  eexists _, _. split; [exact Hcreate |].
  destruct w0; cbn in *. now rewrite Hb.
Qed.

(** ** No task is left queued between calls *)

Lemma Thread_delete_idle (t : ThreadPtr) (w w' : World) :
  pending w = [] -> Thread_delete t w = Returned tt w' -> pending w' = [].
Proof.
  intros Hidle H. apply Thread_delete_destroys in H as (_ & _ & Hp & _).
  now rewrite Hp, Hidle.
Qed.

(** X8: every world the factory's operations lead to has an empty task
    queue: a call that posts a task returns only after the task has run,
    so no construction task is left behind between calls. *)
Lemma reachable_idle (w : World) : reachable w -> pending w = [].
Proof.
  induction 1 as [ | w this w' _ IH Hc | w this w' _ IH Hc
                 | w this w' _ IH Hd
                 | w this port cert_path key_path secret_path p w' _ IH Hs
                 | w this port pfx_path password p w' _ IH Hs
                 | w this url parameters p w' _ IH Hc ].
  - reflexivity.
  - rewrite QuicTransportFactoryImpl_ctor_runs in Hc. injection Hc as _ <-.
    destruct w; exact IH.
  - destruct (Create_runs w) as (w0 & Hr & _ & Hp & _).
    rewrite Hr in Hc. injection Hc as _ <-.
    destruct w0; cbn in *. congruence.
  - unfold QuicTransportFactoryImpl_dtor, bind in Hd.
    destruct (Thread_delete (event_thread_ this) w) as [[] w1| |] eqn:E1;
      try discriminate.
    destruct (Thread_delete (io_thread_ this) w1) as [[] w2| |] eqn:E2;
      try discriminate.
    apply AtExitManager_delete_env in Hd as (_ & Hp & _). rewrite Hp.
    eapply Thread_delete_idle; [| exact E2].
    eapply Thread_delete_idle; [exact IH | exact E1].
  - destruct (chromium_loads cert_path key_path FilePath_empty) eqn:E.
    + rewrite (CreateQuicTransportServer_loaded _ _ _ _ _ _ E) in Hs.
      injection Hs as _ <-. destruct w; exact IH.
    + destruct (CreateQuicTransportServer_failed this port cert_path key_path
                  secret_path w E) as (w1 & Hr & _ & Hp & _).
      rewrite Hr in Hs. injection Hs as _ <-. congruence.
  - destruct (owt_loads pfx_path password) eqn:E.
    + rewrite (CreateQuicTransportServer_pfx_loaded _ _ _ _ _ E) in Hs.
      injection Hs as _ <-. destruct w; exact IH.
    + destruct (CreateQuicTransportServer_pfx_failed this port pfx_path
                  password w E) as (w1 & Hr & _ & Hp & _).
      rewrite Hr in Hs. injection Hs as _ <-. congruence.
  - destruct (CreateQuicTransportClient_returned _ _ _ _ _ _ IH Hc)
      as (th & param & _ & _ & _ & _ & ->).
    reflexivity.
Qed.

(** ** Handles stay valid *)

Lemma deref_grown (w w' : World) l (q : Ptr) o :
  heap w' = heap w ++ l -> deref w q = Some o -> deref w' q = Some o.
Proof.
  intros Hh. destruct q as [|k]; [discriminate |]. cbn. rewrite Hh.
  apply lookup_app_l_Some.
Qed.

Lemma deref_beyond (w : World) : deref w (S (length (heap w))) = None.
Proof. cbn. now apply lookup_ge_None. Qed.

Lemma heap_set_heap f w : heap (set_heap f w) = f (heap w).
Proof. now destruct w. Qed.

(** ** The destructor *)

Lemma QuicTransportFactoryImpl_dtor_runs this w ni ri pi ne re pe :
  threads w !! io_thread_ this = Some (Thread_alive ni ri pi) ->
  threads w !! event_thread_ this = Some (Thread_alive ne re pe) ->
  io_thread_ this <> event_thread_ this ->
  exists w',
    QuicTransportFactoryImpl_dtor this w = Returned tt w'
    /\ threads w' = <[io_thread_ this := Thread_destroyed]>
                      (<[event_thread_ this := Thread_destroyed]> (threads w))
    /\ pending w' = filter (fun x => x.1 <> io_thread_ this)
                      (filter (fun x => x.1 <> event_thread_ this) (pending w))
    /\ heap w' = heap w /\ cells w' = cells w /\ events w' = events w
    /\ env w' = match at_exit_manager_ this with
                | Some _ => at_exit_callbacks (env w)
                | None => env w
                end.
Proof.
  intros Hio Hev Hne.
  destruct w as [ths q hp cs es e]. cbn [threads] in Hio, Hev.
  unfold QuicTransportFactoryImpl_dtor, bind, Thread_delete.
  cbv beta iota delta [threads set_threads set_pending].
  rewrite Hev. cbv beta iota. unfold ThreadPtr in *.
  rewrite list_lookup_insert_ne by congruence. rewrite Hio.
  cbv beta iota. unfold AtExitManager_delete, modify, ret.
  destruct (at_exit_manager_ this) as [m|];
    (eexists; split; [reflexivity |]; cbn; repeat split).
Qed.

(** ** What every history keeps *)

Lemma factory_live_apart w f :
  factory_live w f -> io_thread_ f <> event_thread_ f.
Proof. intros [Hio Hev] E. rewrite E, Hev in Hio. discriminate. Qed.

Lemma consistent_new_factory fs w w' f :
  consistent fs w ->
  threads w' = threads w ++ [io_thread_started; event_thread_started] ->
  pending w' = pending w ->
  heap w' = heap w ->
  io_thread_ f = length (threads w) ->
  event_thread_ f = S (length (threads w)) ->
  consistent (f :: fs) w'.
Proof.
  intros (Hidle & Hlive & Hapart & Hheap) Hths Hp Hh Hio Hev.
  assert (Hnew : factory_live w' f).
  { unfold factory_live. rewrite Hths, Hio, Hev, snoc2. split.
    - apply lookup_snoc2_fst.
    - replace (S (length (threads w)))
        with (length (threads w ++ [io_thread_started]))
        by (rewrite length_app, Nat.add_1_r; reflexivity).
      apply lookup_snoc. }
  assert (Hold : forall g, g ∈ fs ->
            io_thread_ g < length (threads w)
            /\ event_thread_ g < length (threads w)).
  { intros g Hg. destruct (Hlive g Hg) as [H1 H2].
    split; eapply lookup_lt_Some; eassumption. }
  split; [congruence |]. split; [| split].
  - intros g [-> | Hg]%elem_of_cons; [exact Hnew |].
    destruct (Hlive g Hg) as [H1 H2]. unfold factory_live. rewrite Hths.
    split; now apply lookup_app_l_Some.
  - intros g h [-> | Hg]%elem_of_cons [-> | Hh']%elem_of_cons Hne.
    + congruence.
    + destruct (Hold h Hh'). unfold threads_apart. lia.
    + destruct (Hold g Hg). unfold threads_apart. lia.
    + now apply Hapart.
  - now rewrite Hh.
Qed.

Lemma consistent_dtor fs w this w' :
  consistent fs w -> this ∈ fs ->
  QuicTransportFactoryImpl_dtor this w = Returned tt w' ->
  consistent (filter (fun f => f <> this) fs) w'.
Proof.
  intros (Hidle & Hlive & Hapart & Hheap) Hin Hd.
  destruct (Hlive this Hin) as [Hio Hev].
  pose proof (factory_live_apart w this (conj Hio Hev)) as Hne.
  destruct (QuicTransportFactoryImpl_dtor_runs this w _ _ _ _ _ _ Hio Hev Hne)
    as (w1 & Hr & Hths & Hp & Hh & _).
  rewrite Hr in Hd. injection Hd as <-.
  split; [now rewrite Hp, Hidle |]. split; [| split].
  - intros f [Hf Hfs]%list_elem_of_filter.
    destruct (Hapart f this Hfs Hin Hf) as (A1 & A2 & A3 & A4).
    destruct (Hlive f Hfs) as [H1 H2]. unfold factory_live. rewrite Hths.
    rewrite !list_lookup_insert_ne by congruence. now split.
  - intros f g [_ Hf]%list_elem_of_filter [_ Hg]%list_elem_of_filter.
    now apply Hapart.
  - now rewrite Hh.
Qed.

Lemma consistent_new_endpoint fs w w' x :
  consistent fs w ->
  threads w' = threads w -> pending w' = [] ->
  heap w' = heap w ++ [x] ->
  endpoint_ok x ->
  consistent fs w'.
Proof.
  intros (Hidle & Hlive & Hapart & Hheap) Hths Hp Hh Hx.
  split; [exact Hp |]. split; [| split; [exact Hapart |]].
  - intros f Hf. destruct (Hlive f Hf). unfold factory_live.
    rewrite Hths. now split.
  - rewrite Hh.
    apply Forall_app. split; [exact Hheap |]. now repeat constructor.
Qed.

Lemma consistent_failed fs w w' :
  consistent fs w ->
  threads w' = threads w -> pending w' = pending w -> heap w' = heap w ->
  consistent fs w'.
Proof.
  intros (Hidle & Hlive & Hapart & Hheap) Hths Hp Hh.
  split; [congruence |]. split; [| split; [exact Hapart |]].
  - intros f Hf. destruct (Hlive f Hf). unfold factory_live.
    rewrite Hths. now split.
  - now rewrite Hh.
Qed.

Lemma history_consistent fs w : history fs w -> consistent fs w.
Proof.
  induction 1 as [ | fs w this w' _ IH Hc | fs w this w' _ IH Hc
                 | fs w this w' _ IH Hin Hd
                 | fs w this port cert_path key_path secret_path p w' _ IH Hin Hs
                 | fs w this port pfx_path password p w' _ IH Hin Hs
                 | fs w this url parameters p w' _ IH Hin Hc ].
  - split; [reflexivity |]. split; [| split; [| constructor]].
    + intros f Hf. now apply elem_of_nil in Hf.
    + intros f g Hf. now apply elem_of_nil in Hf.
  - unfold CreateForTesting in Hc.
    rewrite QuicTransportFactoryImpl_ctor_runs in Hc. injection Hc as <- <-.
    apply (consistent_new_factory fs w); try (now destruct w); exact IH.
  - destruct (Create_runs w) as (w0 & Hr & Ht & Hp & Hh & _).
    rewrite Hr in Hc. injection Hc as <- <-.
    apply (consistent_new_factory fs w); try exact IH; try reflexivity.
    + destruct w0; cbn in *. now rewrite Ht.
    + destruct w0; cbn in *. exact Hp.
    + destruct w0; cbn in *. exact Hh.
  - eapply consistent_dtor; eassumption.
  - destruct (chromium_loads cert_path key_path FilePath_empty) eqn:E.
    + rewrite (CreateQuicTransportServer_loaded _ _ _ _ _ _ E) in Hs.
      injection Hs as _ <-.
      destruct IH as (Hidle & Hlive & Hrest).
      pose proof (factory_live_apart w this (Hlive this Hin)) as N.
      eapply (consistent_new_endpoint fs w);
        [ exact (conj Hidle (conj Hlive Hrest)) | now destruct w
        | now destruct w | destruct w; reflexivity | ].
      split; [reflexivity | exact N].
    + destruct (CreateQuicTransportServer_failed this port cert_path key_path
                  secret_path w E) as (w1 & Hr & Ht & Hp & Hh & _).
      rewrite Hr in Hs. injection Hs as _ <-.
      now apply (consistent_failed fs w).
  - destruct (owt_loads pfx_path password) eqn:E.
    + rewrite (CreateQuicTransportServer_pfx_loaded _ _ _ _ _ E) in Hs.
      injection Hs as _ <-.
      destruct IH as (Hidle & Hlive & Hrest).
      pose proof (factory_live_apart w this (Hlive this Hin)) as N.
      eapply (consistent_new_endpoint fs w);
        [ exact (conj Hidle (conj Hlive Hrest)) | now destruct w
        | now destruct w | destruct w; reflexivity | ].
      split; [reflexivity | exact N].
    + destruct (CreateQuicTransportServer_pfx_failed this port pfx_path
                  password w E) as (w1 & Hr & Ht & Hp & Hh & _).
      rewrite Hr in Hs. injection Hs as _ <-.
      now apply (consistent_failed fs w).
  - destruct IH as (Hidle & Hlive & Hrest).
    destruct (CreateQuicTransportClient_returned _ _ _ _ _ _ Hidle Hc)
      as (th & param & _ & _ & _ & _ & ->).
    pose proof (factory_live_apart w this (Hlive this Hin)) as N.
    eapply (consistent_new_endpoint fs w);
      [ exact (conj Hidle (conj Hlive Hrest)) | reflexivity | reflexivity
      | reflexivity | ].
    split; [reflexivity | exact N].
Qed.

(** ** Further properties of the factory's operations *)

(** X1: a server creation, by either overload, leaves the threads and the
    task queue alone and keeps every handle given out before: each pointer
    that led to an object still leads to the same object.  A non-null
    result is a pointer that led to nothing before, exactly one object is
    added, and the process environment is untouched. *)
Theorem X1_server_creation_keeps_earlier_handles
    (this : QuicTransportFactoryImpl) (port : Z)
    (cert_path key_path secret_path pfx_path password : string) (w : World) :
  (forall p w',
      CreateQuicTransportServer this port cert_path key_path secret_path w
        = Returned p w' ->
      threads w' = threads w /\ pending w' = pending w
      /\ (forall q o, deref w q = Some o -> deref w' q = Some o)
      /\ (p <> nullptr ->
          deref w p = None
          /\ length (heap w') = S (length (heap w))
          /\ env w' = env w))
  /\ (forall p w',
      CreateQuicTransportServer_pfx this port pfx_path password w
        = Returned p w' ->
      threads w' = threads w /\ pending w' = pending w
      /\ (forall q o, deref w q = Some o -> deref w' q = Some o)
      /\ (p <> nullptr ->
          deref w p = None
          /\ length (heap w') = S (length (heap w))
          /\ env w' = env w)).
Proof.
  split; intros p w' Hret.
  - destruct (chromium_loads cert_path key_path FilePath_empty) eqn:E.
    + rewrite (CreateQuicTransportServer_loaded _ _ _ _ _ _ E) in Hret.
      injection Hret as <- <-.
      split; [now destruct w |]. split; [now destruct w |].
      split; [intros q o; eapply deref_grown; now destruct w |].
      intros _. split; [apply deref_beyond |].
      destruct w; cbn. rewrite length_app, Nat.add_1_r. now split.
    + destruct (CreateQuicTransportServer_failed this port cert_path key_path
                  secret_path w E) as (w1 & Hr & Ht & Hp & Hh & _).
      rewrite Hr in Hret. injection Hret as <- <-.
      split; [exact Ht |]. split; [exact Hp |].
      split; [| intros H; now contradiction H].
      intros q o. apply deref_grown with (l := []). now rewrite app_nil_r.
  - destruct (owt_loads pfx_path password) eqn:E.
    + rewrite (CreateQuicTransportServer_pfx_loaded _ _ _ _ _ E) in Hret.
      injection Hret as <- <-.
      split; [now destruct w |]. split; [now destruct w |].
      split; [intros q o; eapply deref_grown; now destruct w |].
      intros _. split; [apply deref_beyond |].
      destruct w; cbn. rewrite length_app, Nat.add_1_r. now split.
    + destruct (CreateQuicTransportServer_pfx_failed this port pfx_path
                  password w E) as (w1 & Hr & Ht & Hp & Hh & _).
      rewrite Hr in Hret. injection Hret as <- <-.
      split; [exact Ht |]. split; [exact Hp |].
      split; [| intros H; now contradiction H].
      intros q o. apply deref_grown with (l := []). now rewrite app_nil_r.
Qed.

(** X2: a client creation that returns gives a non-null pointer that led
    to nothing before, to a client made for the given URL; it adds exactly
    one object, keeps every earlier handle, and leaves the threads, the
    task queue and the process environment as they were. *)
Theorem X2_client_creation_keeps_earlier_handles
    (this : QuicTransportFactoryImpl) (url : string)
    (parameters : Parameters) (w : World) (p : Ptr) (w' : World) :
  pending w = [] ->
  CreateQuicTransportClient this url parameters w = Returned p w' ->
  p <> nullptr
  /\ deref w p = None
  /\ (exists c,
        deref w' p = Some (WorkerThread (io_thread_ this), ClientObject c)
        /\ client_url c = {| spec := url |})
  /\ length (heap w') = S (length (heap w))
  /\ (forall q o, deref w q = Some o -> deref w' q = Some o)
  /\ threads w' = threads w /\ pending w' = [] /\ env w' = env w.
Proof.
  intros Hidle Hret.
  destruct (CreateQuicTransportClient_returned _ _ _ _ _ _ Hidle Hret)
    as (th & param & _ & _ & _ & -> & ->).
  split; [discriminate |]. split; [apply deref_beyond |].
  split; [eexists; split; [apply deref_after_client | reflexivity] |].
  split; [cbn; rewrite length_app, Nat.add_1_r; reflexivity |].
  split; [intros q o; eapply deref_grown; reflexivity |].
  repeat split.
Qed.

(** X3: the port is never inspected.  Whether a server is created does not
    depend on the port, any [int] is stored as it is, also a negative one,
    and the list of accepted origins of a new server is always empty. *)
Theorem X3_port_is_stored_unchecked
    (this : QuicTransportFactoryImpl) (port1 port2 : Z)
    (cert_path key_path secret_path pfx_path password : string) (w : World) :
  (exists p w1 w2,
      CreateQuicTransportServer this port1 cert_path key_path secret_path w
        = Returned p w1
      /\ CreateQuicTransportServer this port2 cert_path key_path secret_path w
        = Returned p w2
      /\ (p <> nullptr ->
          exists self s1 s2,
            deref w1 p = Some (self, ServerObject s1)
            /\ deref w2 p = Some (self, ServerObject s2)
            /\ server_port s1 = port1 /\ server_port s2 = port2
            /\ server_accepted_origins s1 = []
            /\ server_proof_source s1 = server_proof_source s2))
  /\ (exists p w1 w2,
      CreateQuicTransportServer_pfx this port1 pfx_path password w
        = Returned p w1
      /\ CreateQuicTransportServer_pfx this port2 pfx_path password w
        = Returned p w2
      /\ (p <> nullptr ->
          exists self s1 s2,
            deref w1 p = Some (self, ServerObject s1)
            /\ deref w2 p = Some (self, ServerObject s2)
            /\ server_port s1 = port1 /\ server_port s2 = port2
            /\ server_accepted_origins s1 = []
            /\ server_proof_source s1 = server_proof_source s2)).
Proof.
  split.
  - destruct (chromium_loads cert_path key_path FilePath_empty) eqn:E.
    + eexists _, _, _.
      split; [apply CreateQuicTransportServer_loaded, E |].
      split; [apply CreateQuicTransportServer_loaded, E |].
      intros _. eexists _, _, _.
      split; [apply deref_new |]. split; [apply deref_new |].
      repeat split.
    + destruct (CreateQuicTransportServer_failed this port1 cert_path key_path
                  secret_path w E) as (w1 & Hr1 & _).
      destruct (CreateQuicTransportServer_failed this port2 cert_path key_path
                  secret_path w E) as (w2 & Hr2 & _).
      exists nullptr, w1, w2. split; [exact Hr1 |]. split; [exact Hr2 |].
      intros H. now contradiction H.
  - destruct (owt_loads pfx_path password) eqn:E.
    + eexists _, _, _.
      split; [apply CreateQuicTransportServer_pfx_loaded, E |].
      split; [apply CreateQuicTransportServer_pfx_loaded, E |].
      intros _. eexists _, _, _.
      split; [apply deref_new |]. split; [apply deref_new |].
      repeat split.
    + destruct (CreateQuicTransportServer_pfx_failed this port1 pfx_path
                  password w E) as (w1 & Hr1 & _).
      destruct (CreateQuicTransportServer_pfx_failed this port2 pfx_path
                  password w E) as (w2 & Hr2 & _).
      exists nullptr, w1, w2. split; [exact Hr1 |]. split; [exact Hr2 |].
      intros H. now contradiction H.
Qed.

(** X4: when the proof source does not initialise, the two overloads fail
    alike: both return [nullptr] and leave one and the same world, in
    which the only change is the log line "Failed to initialize proof
    source." at severity ERROR, written when the minimum log level lets
    ERROR through and not otherwise.  Nothing tells the caller which
    overload or which cause it was. *)
Theorem X4_both_overloads_fail_with_the_same_log_line
    (this : QuicTransportFactoryImpl) (port : Z)
    (cert_path key_path secret_path pfx_path password : string) (w : World) :
  chromium_loads (FilePath_FromUTF8Unsafe cert_path)
    (FilePath_FromUTF8Unsafe key_path) FilePath_empty = false ->
  owt_loads (FilePath_FromUTF8Unsafe pfx_path) password = false ->
  exists w',
    CreateQuicTransportServer this port cert_path key_path secret_path w
      = Returned nullptr w'
    /\ CreateQuicTransportServer_pfx this port pfx_path password w
      = Returned nullptr w'
    /\ threads w' = threads w /\ pending w' = pending w /\ heap w' = heap w
    /\ min_log_level (env w') = min_log_level (env w)
    /\ command_line (env w') = command_line (env w)
    /\ log (env w')
       = if (min_log_level (env w) <=? LOG_ERROR)%Z
         then log (env w) ++ [(LOG_ERROR, "Failed to initialize proof source.")]
         else log (env w).
Proof.
  unfold FilePath_FromUTF8Unsafe. intros E1 E2.
  unfold CreateQuicTransportServer, CreateQuicTransportServer_pfx,
    ProofSourceChromium_Initialize, ProofSourceOwt_Initialize,
    FilePath_FromUTF8Unsafe.
  rewrite E1, E2. cbn [negb]. unfold bind, LOG, modify, ret.
  eexists. split; [reflexivity |]. split; [reflexivity |].
  destruct w as [ths q hp cs es [tp cl lvl lg lo bs]]. cbn.
  destruct (lvl <=? LOG_ERROR)%Z; repeat split.
Qed.

(** X5: [Create] and [CreateForTesting] build the same factory in the same
    way: the same two thread pointers, the same threads, the same
    bootstrap.  They differ in two things only: [Create] starts the thread
    pool "quic_transport_thread_pool" and gives the factory an at-exit
    manager, [CreateForTesting] leaves the thread pool as it found it and
    the factory without one. *)
Theorem X5_Create_is_CreateForTesting_with_pool_and_at_exit_manager
    (w : World) :
  exists this w1 w2,
    CreateForTesting w = Returned this w1
    /\ Create w = Returned (InitializeAtExitManager this) w2
    /\ at_exit_manager_ this = None
    /\ at_exit_manager_ (InitializeAtExitManager this) = Some AtExitManager_new
    /\ io_thread_ (InitializeAtExitManager this) = io_thread_ this
    /\ event_thread_ (InitializeAtExitManager this) = event_thread_ this
    /\ threads w2 = threads w1 /\ heap w2 = heap w1 /\ pending w2 = pending w1
    /\ bootstrap (env w2) = bootstrap (env w1)
    /\ command_line (env w2) = command_line (env w1)
    /\ min_log_level (env w2) = min_log_level (env w1)
    /\ logging (env w2) = logging (env w1)
    /\ log (env w2) = log (env w1)
    /\ thread_pool (env w1) = thread_pool (env w)
    /\ thread_pool (env w2) = Some "quic_transport_thread_pool".
Proof.
  exists (factory_in w), (after_ctor w).
  unfold CreateForTesting, Create, bind,
    ThreadPoolInstance_CreateAndStartWithDefaultParams, modify.
  rewrite !QuicTransportFactoryImpl_ctor_runs.
  destruct w as [ths q hp cs es [tp cl lvl lg lo bs]].
  eexists. split; [reflexivity |]. split; [reflexivity |].
  cbn. repeat split.
Qed.

(** X6: the loop reads the first [length] records of the caller's array
    and nothing after them: records that follow in the array change
    neither the configuration nor the outcome of the call. *)
Theorem X6_records_after_the_stated_length_are_not_read
    (this : QuicTransportFactoryImpl) (url : string)
    (fingerprints more : list owt.CertificateFingerprint) (n : nat)
    (w : World) :
  n <= length fingerprints ->
  translate {| server_certificate_fingerprints := fingerprints ++ more;
               server_certificate_fingerprints_length := n |}
    = Some {| wt_server_certificate_fingerprints :=
                sha256_entry <$> take n fingerprints |}
  /\ CreateQuicTransportClient this url
       {| server_certificate_fingerprints := fingerprints ++ more;
          server_certificate_fingerprints_length := n |} w
     = CreateQuicTransportClient this url
         {| server_certificate_fingerprints := fingerprints;
            server_certificate_fingerprints_length := n |} w.
Proof.
  intros Hn.
  assert (H1 : translate
                 {| server_certificate_fingerprints := fingerprints ++ more;
                    server_certificate_fingerprints_length := n |}
               = Some {| wt_server_certificate_fingerprints :=
                           sha256_entry <$> take n fingerprints |}).
  { rewrite translate_ok by (cbn; rewrite length_app; lia).
    cbn. now rewrite take_app_le. }
  split; [exact H1 |].
  unfold CreateQuicTransportClient. rewrite H1.
  now rewrite translate_ok by exact Hn.
Qed.

(** X7: a stated length beyond the array makes the loop read past the end
    of the array.  The call then has undefined behaviour in every world,
    whatever the URL and the state of the threads. *)
Theorem X7_length_beyond_the_array_is_undefined
    (this : QuicTransportFactoryImpl) (url : string)
    (parameters : Parameters) (w : World) :
  length (server_certificate_fingerprints parameters)
    < server_certificate_fingerprints_length parameters ->
  translate parameters = None
  /\ CreateQuicTransportClient this url parameters w = Undefined.
Proof.
  intros Hn.
  assert (H : translate parameters = None).
  { unfold translate. apply translate_from_out_of_range; lia. }
  split; [exact H |].
  unfold CreateQuicTransportClient, bind, local_cell. now rewrite H.
Qed.

(** X9: on a live factory a client creation never blocks.  In every
    history, for every factory that is alive and every parameters value
    whose array holds the stated number of records, the call returns a
    non-null pointer to the client its task constructed on the factory's
    I/O thread. *)
Theorem X9_client_creation_on_a_live_factory_returns
    (fs : list QuicTransportFactoryImpl) (w : World)
    (this : QuicTransportFactoryImpl) (url : string)
    (parameters : Parameters) :
  history fs w ->
  this ∈ fs ->
  server_certificate_fingerprints_length parameters
    <= length (server_certificate_fingerprints parameters) ->
  exists p w' param,
    CreateQuicTransportClient this url parameters w = Returned p w'
    /\ p <> nullptr
    /\ translate parameters = Some param
    /\ deref w' p = Some (WorkerThread (io_thread_ this),
                          ClientObject (client_of this url param))
    /\ history fs w'.
Proof.
  intros Hhist Hin Hlen.
  destruct (history_consistent fs w Hhist) as (Hidle & Hlive & _).
  destruct (Hlive this Hin) as [Hio _].
  pose proof (translate_ok parameters Hlen) as Htr.
  pose proof (CreateQuicTransportClient_running this url parameters w
                io_thread_started _ Hidle Hio eq_refl Htr) as Hret.
  eexists _, _, _. split; [exact Hret |].
  split; [discriminate |]. split; [exact Htr |].
  split; [apply deref_after_client |].
  eapply history_client; eassumption.
Qed.

(** X10: in every history each endpoint in the heap is where the factory
    constructs such endpoints: a server was constructed on the calling
    thread, a client on the I/O thread whose pointer it holds, and the two
    thread pointers an endpoint was handed are different.  This speaks of
    the endpoint and the pointers it holds, so it stays true of an endpoint
    whose factory is gone. *)
Theorem X10_endpoints_are_constructed_where_the_factory_puts_them
    (fs : list QuicTransportFactoryImpl) (w : World) (p : Ptr)
    (self : ThreadId) (o : Object) :
  history fs w ->
  deref w p = Some (self, o) ->
  match o with
  | ServerObject s =>
      self = CallerThread
      /\ server_io_thread s <> server_event_thread s
  | ClientObject c =>
      self = WorkerThread (client_io_thread c)
      /\ client_io_thread c <> client_event_thread c
  end.
Proof.
  intros Hhist Hp.
  destruct (history_consistent fs w Hhist) as (_ & _ & _ & Hheap).
  destruct p as [|k]; [discriminate |]. cbn in Hp.
  pose proof (Forall_lookup_1 _ _ _ _ Hheap Hp) as Hok.
  unfold endpoint_ok in Hok. cbn in Hok.
  destruct o as [s|c]; exact Hok.
Qed.

(** X11: factories do not share threads.  In every history each live
    factory has both its threads running, and two different live factories
    have four different threads; destroying one of them therefore leaves
    the threads of the others running. *)
Theorem X11_live_factories_have_running_threads_of_their_own
    (fs : list QuicTransportFactoryImpl) (w : World)
    (f g : QuicTransportFactoryImpl) :
  history fs w ->
  f ∈ fs -> g ∈ fs -> f <> g ->
  threads w !! io_thread_ f = Some io_thread_started
  /\ threads w !! event_thread_ f = Some event_thread_started
  /\ threads w !! io_thread_ g = Some io_thread_started
  /\ threads w !! event_thread_ g = Some event_thread_started
  /\ io_thread_ f <> io_thread_ g /\ io_thread_ f <> event_thread_ g
  /\ event_thread_ f <> io_thread_ g /\ event_thread_ f <> event_thread_ g
  /\ (forall w',
        QuicTransportFactoryImpl_dtor f w = Returned tt w' ->
        threads w' !! io_thread_ g = Some io_thread_started
        /\ threads w' !! event_thread_ g = Some event_thread_started).
Proof.
  intros Hhist Hf Hg Hne.
  pose proof (history_consistent fs w Hhist) as Hc.
  destruct Hc as (Hidle & Hlive & Hapart & Hheap).
  destruct (Hlive f Hf) as [F1 F2]. destruct (Hlive g Hg) as [G1 G2].
  destruct (Hapart f g Hf Hg Hne) as (A1 & A2 & A3 & A4).
  repeat (split; [assumption |]).
  intros w' Hd.
  assert (Hg' : g ∈ filter (fun x => x <> f) fs).
  { apply list_elem_of_filter. split; [congruence | exact Hg]. }
  destruct (consistent_dtor fs w f w'
              (conj Hidle (conj Hlive (conj Hapart Hheap))) Hf Hd)
    as (_ & Hlive' & _).
  exact (Hlive' g Hg').
Qed.

(** X12: the destructor of a factory whose two threads are running
    always returns and destroys exactly these two thread objects.
    Afterwards both thread pointers dangle, so that a client creation
    through the destroyed factory and a second destruction are undefined;
    every other thread is as it was, only tasks queued for other threads
    remain, the endpoints in the heap are untouched, and the process
    environment changes through the at-exit callbacks alone, which run
    only for a factory that has an at-exit manager. *)
Theorem X12_destructor_destroys_exactly_its_two_threads
    (this : QuicTransportFactoryImpl) (w : World) :
  threads w !! io_thread_ this = Some io_thread_started ->
  threads w !! event_thread_ this = Some event_thread_started ->
  exists w',
    QuicTransportFactoryImpl_dtor this w = Returned tt w'
    /\ threads w' !! io_thread_ this = Some Thread_destroyed
    /\ threads w' !! event_thread_ this = Some Thread_destroyed
    /\ (forall t, t <> io_thread_ this -> t <> event_thread_ this ->
                  threads w' !! t = threads w !! t)
    /\ heap w' = heap w
    /\ env w' = match at_exit_manager_ this with
                | Some _ => at_exit_callbacks (env w)
                | None => env w
                end
    /\ (forall t task, (t, task) ∈ pending w' ->
          (t, task) ∈ pending w
          /\ t <> io_thread_ this /\ t <> event_thread_ this)
    /\ (forall url parameters,
          CreateQuicTransportClient this url parameters w' = Undefined)
    /\ QuicTransportFactoryImpl_dtor this w' = Undefined.
Proof.
  intros Hio Hev.
  pose proof (factory_live_apart w this (conj Hio Hev)) as Hne.
  destruct (QuicTransportFactoryImpl_dtor_runs this w _ _ _ _ _ _ Hio Hev Hne)
    as (w' & Hr & Hths & Hp & Hh & _ & _ & He).
  assert (Hio' : threads w' !! io_thread_ this = Some Thread_destroyed).
  { rewrite Hths. apply list_lookup_insert_eq. rewrite length_insert.
    eapply lookup_lt_Some; exact Hio. }
  assert (Hev' : threads w' !! event_thread_ this = Some Thread_destroyed).
  { rewrite Hths. rewrite list_lookup_insert_ne by exact Hne.
    apply list_lookup_insert_eq. eapply lookup_lt_Some; exact Hev. }
  exists w'. split; [exact Hr |].
  split; [exact Hio' |]. split; [exact Hev' |].
  split.
  { intros t H1 H2. rewrite Hths.
    rewrite !list_lookup_insert_ne by congruence. reflexivity. }
  split; [exact Hh |]. split; [exact He |].
  split.
  { intros t task Hin. rewrite Hp in Hin.
    apply list_elem_of_filter in Hin as [H1 Hin].
    apply list_elem_of_filter in Hin as [H2 Hin].
    cbn in H1, H2. auto. }
  split.
  { intros url parameters. now apply CreateQuicTransportClient_destroyed. }
  unfold QuicTransportFactoryImpl_dtor, bind, Thread_delete.
  now rewrite Hev'.
Qed.

(** X13: a server and a client made one after the other by one factory are
    two different objects that are both valid afterwards; the server was
    constructed by the caller, the client on the I/O thread, and the two
    hold the same pair of thread pointers, the factory's. *)
Theorem X13_server_then_client_share_the_factory_threads
    (this : QuicTransportFactoryImpl) (port : Z)
    (cert_path key_path secret_path url : string) (parameters : Parameters)
    (w w1 w2 : World) (p1 p2 : Ptr) :
  pending w = [] ->
  CreateQuicTransportServer this port cert_path key_path secret_path w
    = Returned p1 w1 ->
  p1 <> nullptr ->
  CreateQuicTransportClient this url parameters w1 = Returned p2 w2 ->
  p1 <> p2
  /\ exists s c,
       deref w2 p1 = Some (CallerThread, ServerObject s)
       /\ deref w2 p2 = Some (WorkerThread (io_thread_ this), ClientObject c)
       /\ server_io_thread s = io_thread_ this
       /\ client_io_thread c = io_thread_ this
       /\ server_event_thread s = event_thread_ this
       /\ client_event_thread c = event_thread_ this.
Proof.
  intros Hidle Hs Hnn Hc.
  destruct (chromium_loads cert_path key_path FilePath_empty) eqn:E.
  - rewrite (CreateQuicTransportServer_loaded _ _ _ _ _ _ E) in Hs.
    injection Hs as <- <-.
    assert (Hidle1 : pending (set_heap (fun h => h ++
              [(CallerThread, ServerObject (server_of this port
                 (OfChromium {| chromium_loaded :=
                    Some (cert_path, key_path, FilePath_empty) |})))]) w) = [])
      by (now destruct w).
    destruct (CreateQuicTransportClient_returned _ _ _ _ _ _ Hidle1 Hc)
      as (th & param & _ & _ & _ & -> & ->).
    split.
    { destruct w; cbn. rewrite length_app. cbn. lia. }
    eexists _, _.
    split.
    { eapply deref_grown; [| apply deref_new]. reflexivity. }
    split; [apply deref_after_client |]. repeat split.
  - destruct (CreateQuicTransportServer_failed this port cert_path key_path
                secret_path w E) as (w3 & Hr & _).
    rewrite Hr in Hs. injection Hs as <- _. now contradiction Hnn.
Qed.

End Factory.

(** ** The operations on a concrete process *)

(** The example world is the one the constructor makes in a fresh
    process, and the torn-down world is what the destructor leaves. *)
Example example_world_is_constructed :
  QuicTransportFactoryImpl_ctor false fresh_world
    = Returned example_factory example_world.
Proof. reflexivity. Qed.

Example torn_down_world_is_destroyed :
  QuicTransportFactoryImpl_dtor example_at_exit_callbacks example_factory example_world
    = Returned tt torn_down_world.
Proof. reflexivity. Qed.

Example example_server_from_files :
  CreateQuicTransportServer example_chromium_loads example_factory 9090%Z
    "cert.pem" "key.pem" "secret.txt" example_world
  = Returned 1
      (set_heap (fun _ =>
         [(CallerThread,
           ServerObject
             {| server_port := 9090%Z; server_accepted_origins := [];
                server_proof_source :=
                  OfChromium {| chromium_loaded :=
                                  Some ("cert.pem", "key.pem", "") |};
                server_io_thread := 0; server_event_thread := 1 |})])
         example_world).
Proof. reflexivity. Qed.

Example example_server_wrong_password :
  exists w',
    CreateQuicTransportServer_pfx example_owt_loads example_factory 9090%Z
      "archive.pfx" "wrong-password" example_world = Returned nullptr w'
    /\ heap w' = []
    /\ log (env w') = [(LOG_ERROR, "Failed to initialize proof source.")].
Proof. eexists. repeat split. Qed.

Example example_two_fingerprints_in_order :
  translate pinned_parameters
  = Some {| wt_server_certificate_fingerprints :=
              [{| quic.algorithm := quic.kSha256;
                  quic.fingerprint := "12:3D:5B" |};
               {| quic.algorithm := quic.kSha256;
                  quic.fingerprint := "7E:BD:E3" |}] |}.
Proof. reflexivity. Qed.

Example example_length_beyond_the_array :
  CreateQuicTransportClient example_parse_url example_factory
    "https://example.test:9090"
    {| server_certificate_fingerprints := [sha1_fingerprint];
       server_certificate_fingerprints_length := 2 |} example_world
  = Undefined.
Proof. reflexivity. Qed.



(** C2, counterexample: the server of a file-pair creation is made by the
    calling thread itself; no task is queued and no event exists. *)
Lemma C2_server_made_by_the_caller :
  exists w' s,
    CreateQuicTransportServer example_chromium_loads example_factory 9090%Z
      "cert.pem" "key.pem" "" example_world = Returned 1 w'
    /\ deref w' 1 = Some (CallerThread, ServerObject s)
    /\ CallerThread <> WorkerThread (io_thread_ example_factory)
    /\ pending w' = []
    /\ events w' = []
    /\ cells w' = [].
Proof.
  eexists _, _. split; [reflexivity |]. split; [reflexivity |].
  split; [discriminate |]. repeat split.
Qed.

Lemma C4_witness :
  CreateQuicTransportClient_url example_parse_url example_factory
    "https://example.test:9090" example_world
  = CreateQuicTransportClient example_parse_url example_factory
      "https://example.test:9090" no_fingerprints example_world
  /\ translate no_fingerprints
     = Some {| wt_server_certificate_fingerprints := [] |}
  /\ (forall p w',
        pending example_world = [] ->
        CreateQuicTransportClient example_parse_url example_factory
          "https://example.test:9090" no_fingerprints example_world
          = Returned p w' ->
        exists self c,
          deref w' p = Some (self, ClientObject c)
          /\ wt_server_certificate_fingerprints (client_parameters c) = []).
Proof.
  apply (C4_one_argument_form_is_the_empty_list_form example_parse_url
           example_factory "https://example.test:9090" no_fingerprints
           example_world).
  reflexivity.
Defined.

Lemma C5_witness :
  exists param,
    translate pinned_parameters = Some param
    /\ length (wt_server_certificate_fingerprints param)
         = length (server_certificate_fingerprints pinned_parameters)
    /\ (forall i r,
          server_certificate_fingerprints pinned_parameters !! i = Some r ->
          exists e,
            wt_server_certificate_fingerprints param !! i = Some e
            /\ quic.fingerprint e = owt.fingerprint r)
    /\ (forall p w',
          pending example_world = [] ->
          CreateQuicTransportClient example_parse_url example_factory
            "https://example.test:9090" pinned_parameters example_world
            = Returned p w' ->
          exists self c,
            deref w' p = Some (self, ClientObject c)
            /\ client_parameters c = param).
Proof.
  apply (C5_fingerprints_keep_count_and_order example_parse_url
           example_factory "https://example.test:9090" pinned_parameters
           example_world).
  reflexivity.
Defined.

(** C6, counterexample: a URL that does not parse into an origin still
    gives a client; the handle is not null and the origin is opaque. *)
Lemma C6_unparsable_url_still_gives_a_client :
  example_parse_url "not a url" = None
  /\ exists w' c,
       CreateQuicTransportClient example_parse_url example_factory
         "not a url" no_fingerprints example_world = Returned 1 w'
       /\ 1 <> nullptr
       /\ deref w' 1 = Some (WorkerThread 0, ClientObject c)
       /\ client_origin c = OpaqueOrigin.
Proof.
  split; [reflexivity |].
  eexists _, _. split; [reflexivity |].
  split; [discriminate |]. split; reflexivity.
Qed.

Lemma C6_witness :
  (example_chromium_loads "cert.pem" "no-such-key.pem" FilePath_empty = false ->
   exists w',
     CreateQuicTransportServer example_chromium_loads example_factory 9090%Z
       "cert.pem" "no-such-key.pem" "" example_world = Returned nullptr w')
  /\ (example_owt_loads "archive.pfx" "wrong-password" = false ->
      exists w',
        CreateQuicTransportServer_pfx example_owt_loads example_factory 9090%Z
          "archive.pfx" "wrong-password" example_world = Returned nullptr w')
  /\ (exists p w' c,
        CreateQuicTransportClient example_parse_url example_factory
          "not a url" no_fingerprints example_world = Returned p w'
        /\ p <> nullptr
        /\ deref w' p = Some (WorkerThread (io_thread_ example_factory),
                              ClientObject c)
        /\ client_url c = {| spec := "not a url" |}
        /\ client_origin c = Origin_Create example_parse_url
                               {| spec := "not a url" |}
        /\ (example_parse_url "not a url" = None ->
            client_origin c = OpaqueOrigin)).
Proof.
  apply (C6_null_for_server_failure_client_for_any_url example_parse_url
           example_chromium_loads example_owt_loads example_factory 9090%Z
           "cert.pem" "no-such-key.pem" "" "archive.pfx" "wrong-password"
           "not a url" no_fingerprints example_world io_thread_started
           {| wt_server_certificate_fingerprints := [] |});
    reflexivity.
Defined.

(** C7, counterexample: once the factory is destroyed its I/O thread is
    gone, and a client creation through it does not fail with an error:
    the call goes through the dangling thread pointer and is undefined. *)
Lemma C7_after_teardown_the_call_is_undefined :
  QuicTransportFactoryImpl_dtor example_at_exit_callbacks example_factory
    example_world = Returned tt torn_down_world
  /\ threads torn_down_world !! io_thread_ example_factory
     = Some Thread_destroyed
  /\ CreateQuicTransportClient example_parse_url example_factory
       "https://example.test:9090" no_fingerprints torn_down_world
     = Undefined.
Proof. repeat split. Qed.

Lemma C7_witness :
  (exists p w',
      CreateQuicTransportClient example_parse_url example_factory
        "https://example.test:9090" sha1_parameters example_world
        = Returned p w'
      /\ p <> nullptr
      /\ deref w' p = Some (WorkerThread (io_thread_ example_factory),
                            ClientObject (client_of example_parse_url
                              example_factory "https://example.test:9090"
                              sha1_translated)))
  /\ threads torn_down_world !! io_thread_ example_factory
     = Some Thread_destroyed
  /\ CreateQuicTransportClient example_parse_url example_factory
       "https://example.test:9090" sha1_parameters torn_down_world
     = Undefined
  /\ (forall w2 url2 parameters2 p w3,
        pending w2 = [] ->
        CreateQuicTransportClient example_parse_url example_factory url2
          parameters2 w2 = Returned p w3 ->
        p <> nullptr
        /\ exists th2, threads w2 !! io_thread_ example_factory = Some th2
                       /\ thread_running th2 = true).
Proof.
  apply (C7_client_creation_has_no_fail_fast_path example_parse_url
           example_at_exit_callbacks example_factory
           "https://example.test:9090" sha1_parameters example_world
           io_thread_started sha1_translated torn_down_world);
    reflexivity.
Defined.

(** C9, counterexample: a second factory in the same process runs the
    bootstrap again; the trace holds the four calls twice and the command
    line holds the switch twice. *)
Lemma C9_second_factory_runs_the_bootstrap_again :
  exists this2 w2,
    QuicTransportFactoryImpl_ctor false fresh_world
      = Returned example_factory example_world
    /\ QuicTransportFactoryImpl_ctor false example_world = Returned this2 w2
    /\ bootstrap (env w2) = Init_calls false ++ Init_calls false
    /\ command_line (env example_world) = Some ["--quic_default_to_bbr"]
    /\ command_line (env w2)
       = Some ["--quic_default_to_bbr"; "--quic_default_to_bbr"]
    /\ env w2 <> env example_world.
Proof.
  exists (factory_in example_world), (after_ctor false example_world).
  split; [reflexivity |]. split; [reflexivity |].
  split; [reflexivity |]. split; [reflexivity |]. split; [reflexivity |].
  discriminate.
Qed.

(** ** The further properties on a concrete process *)

Example example_history :
  history false example_parse_url example_chromium_loads example_owt_loads
    example_at_exit_callbacks [example_factory] example_world.
Proof.
  apply (history_CreateForTesting false example_parse_url
           example_chromium_loads example_owt_loads example_at_exit_callbacks
           [] fresh_world
           example_factory example_world).
  - apply history_fresh.
  - reflexivity.
Qed.

Example example_server_history :
  history false example_parse_url example_chromium_loads example_owt_loads
    example_at_exit_callbacks [example_factory] example_server_world.
Proof.
  apply (history_server false example_parse_url example_chromium_loads
           example_owt_loads example_at_exit_callbacks [example_factory]
           example_world example_factory
           9090%Z "cert.pem" "key.pem" "" 1 example_server_world).
  - apply example_history.
  - constructor.
  - reflexivity.
Qed.

Example two_factory_history :
  history false example_parse_url example_chromium_loads example_owt_loads
    example_at_exit_callbacks [second_factory; example_factory] two_factory_world.
Proof.
  apply (history_CreateForTesting false example_parse_url
           example_chromium_loads example_owt_loads example_at_exit_callbacks
           [example_factory] example_world second_factory two_factory_world).
  - apply example_history.
  - reflexivity.
Qed.

Lemma X2_witness :
  1 <> nullptr
  /\ deref example_world 1 = None
  /\ (exists c,
        deref (after_client example_parse_url example_factory
                 "https://example.test:9090" sha1_translated example_world) 1
          = Some (WorkerThread (io_thread_ example_factory), ClientObject c)
        /\ client_url c = {| spec := "https://example.test:9090" |})
  /\ length (heap (after_client example_parse_url example_factory
                     "https://example.test:9090" sha1_translated
                     example_world))
     = S (length (heap example_world))
  /\ (forall q o,
        deref example_world q = Some o ->
        deref (after_client example_parse_url example_factory
                 "https://example.test:9090" sha1_translated example_world) q
          = Some o)
  /\ threads (after_client example_parse_url example_factory
                "https://example.test:9090" sha1_translated example_world)
     = threads example_world
  /\ pending (after_client example_parse_url example_factory
                "https://example.test:9090" sha1_translated example_world)
     = []
  /\ env (after_client example_parse_url example_factory
            "https://example.test:9090" sha1_translated example_world)
     = env example_world.
Proof.
  apply (X2_client_creation_keeps_earlier_handles example_parse_url
           example_factory "https://example.test:9090" sha1_parameters
           example_world 1
           (after_client example_parse_url example_factory
              "https://example.test:9090" sha1_translated example_world));
    reflexivity.
Defined.

Lemma X4_witness :
  exists w',
    CreateQuicTransportServer example_chromium_loads example_factory 9090%Z
      "cert.pem" "no-such-key.pem" "" example_world = Returned nullptr w'
    /\ CreateQuicTransportServer_pfx example_owt_loads example_factory 9090%Z
         "archive.pfx" "wrong-password" example_world = Returned nullptr w'
    /\ threads w' = threads example_world
    /\ pending w' = pending example_world
    /\ heap w' = heap example_world
    /\ min_log_level (env w') = min_log_level (env example_world)
    /\ command_line (env w') = command_line (env example_world)
    /\ log (env w')
       = if (min_log_level (env example_world) <=? LOG_ERROR)%Z
         then log (env example_world)
              ++ [(LOG_ERROR, "Failed to initialize proof source.")]
         else log (env example_world).
Proof.
  apply (X4_both_overloads_fail_with_the_same_log_line example_chromium_loads
           example_owt_loads example_factory 9090%Z "cert.pem"
           "no-such-key.pem" "" "archive.pfx" "wrong-password" example_world);
    reflexivity.
Defined.

Lemma X6_witness :
  translate {| server_certificate_fingerprints :=
                 [sha1_fingerprint]
                 ++ server_certificate_fingerprints pinned_parameters;
               server_certificate_fingerprints_length := 1 |}
    = Some {| wt_server_certificate_fingerprints :=
                sha256_entry <$> take 1 [sha1_fingerprint] |}
  /\ CreateQuicTransportClient example_parse_url example_factory
       "https://example.test:9090"
       {| server_certificate_fingerprints :=
            [sha1_fingerprint]
            ++ server_certificate_fingerprints pinned_parameters;
          server_certificate_fingerprints_length := 1 |} example_world
     = CreateQuicTransportClient example_parse_url example_factory
         "https://example.test:9090"
         {| server_certificate_fingerprints := [sha1_fingerprint];
            server_certificate_fingerprints_length := 1 |} example_world.
Proof.
  apply (X6_records_after_the_stated_length_are_not_read example_parse_url
           example_factory "https://example.test:9090" [sha1_fingerprint]
           (server_certificate_fingerprints pinned_parameters) 1
           example_world).
  simpl. lia.
Defined.

Lemma X7_witness :
  translate {| server_certificate_fingerprints := [sha1_fingerprint];
               server_certificate_fingerprints_length := 2 |} = None
  /\ CreateQuicTransportClient example_parse_url example_factory
       "https://example.test:9090"
       {| server_certificate_fingerprints := [sha1_fingerprint];
          server_certificate_fingerprints_length := 2 |} example_world
     = Undefined.
Proof.
  apply (X7_length_beyond_the_array_is_undefined example_parse_url
           example_factory "https://example.test:9090"
           {| server_certificate_fingerprints := [sha1_fingerprint];
              server_certificate_fingerprints_length := 2 |} example_world).
  simpl. lia.
Defined.

Lemma X8_witness :
  pending (after_client example_parse_url example_factory
             "https://example.test:9090" sha1_translated example_world) = [].
Proof.
  apply (reachable_idle false example_parse_url example_chromium_loads
           example_owt_loads example_at_exit_callbacks).
  apply (reachable_client false example_parse_url example_chromium_loads
           example_owt_loads example_at_exit_callbacks example_world
           example_factory "https://example.test:9090" sha1_parameters 1).
  - apply (reachable_ctor false example_parse_url example_chromium_loads
             example_owt_loads example_at_exit_callbacks fresh_world
             example_factory).
    + apply reachable_fresh.
    + reflexivity.
  - reflexivity.
Defined.

Lemma X9_witness :
  exists p w' param,
    CreateQuicTransportClient example_parse_url example_factory
      "not a url" pinned_parameters example_world = Returned p w'
    /\ p <> nullptr
    /\ translate pinned_parameters = Some param
    /\ deref w' p = Some (WorkerThread (io_thread_ example_factory),
                          ClientObject (client_of example_parse_url
                            example_factory "not a url" param))
    /\ history false example_parse_url example_chromium_loads
         example_owt_loads example_at_exit_callbacks [example_factory] w'.
Proof.
  apply (X9_client_creation_on_a_live_factory_returns false example_parse_url
           example_chromium_loads example_owt_loads example_at_exit_callbacks
           [example_factory] example_world example_factory "not a url"
           pinned_parameters).
  - apply example_history.
  - constructor.
  - simpl. lia.
Defined.

Example torn_down_server_history :
  history false example_parse_url example_chromium_loads example_owt_loads
    example_at_exit_callbacks
    (filter (fun f => f <> example_factory) [example_factory])
    torn_down_server_world.
Proof.
  apply (history_dtor false example_parse_url example_chromium_loads
           example_owt_loads example_at_exit_callbacks [example_factory]
           example_server_world example_factory torn_down_server_world).
  - apply example_server_history.
  - constructor.
  - reflexivity.
Qed.

Lemma X10_witness :
  CallerThread = CallerThread
  /\ server_io_thread example_server <> server_event_thread example_server.
Proof.
  apply (X10_endpoints_are_constructed_where_the_factory_puts_them false
           example_parse_url example_chromium_loads example_owt_loads
           example_at_exit_callbacks
           (filter (fun f => f <> example_factory) [example_factory])
           torn_down_server_world 1 CallerThread
           (ServerObject example_server)).
  - apply torn_down_server_history.
  - reflexivity.
Defined.

Lemma X11_witness :
  threads two_factory_world !! io_thread_ example_factory
    = Some io_thread_started
  /\ threads two_factory_world !! event_thread_ example_factory
     = Some event_thread_started
  /\ threads two_factory_world !! io_thread_ second_factory
     = Some io_thread_started
  /\ threads two_factory_world !! event_thread_ second_factory
     = Some event_thread_started
  /\ io_thread_ example_factory <> io_thread_ second_factory
  /\ io_thread_ example_factory <> event_thread_ second_factory
  /\ event_thread_ example_factory <> io_thread_ second_factory
  /\ event_thread_ example_factory <> event_thread_ second_factory
  /\ (forall w',
        QuicTransportFactoryImpl_dtor example_at_exit_callbacks example_factory two_factory_world
          = Returned tt w' ->
        threads w' !! io_thread_ second_factory = Some io_thread_started
        /\ threads w' !! event_thread_ second_factory
           = Some event_thread_started).
Proof.
  apply (X11_live_factories_have_running_threads_of_their_own false
           example_parse_url example_chromium_loads example_owt_loads
           example_at_exit_callbacks
           [second_factory; example_factory] two_factory_world
           example_factory second_factory).
  - apply two_factory_history.
  - repeat constructor.
  - repeat constructor.
  - discriminate.
Defined.

Lemma X12_witness :
  exists w',
    QuicTransportFactoryImpl_dtor example_at_exit_callbacks example_factory
      two_factory_world = Returned tt w'
    /\ threads w' !! io_thread_ example_factory = Some Thread_destroyed
    /\ threads w' !! event_thread_ example_factory = Some Thread_destroyed
    /\ (forall t,
          t <> io_thread_ example_factory ->
          t <> event_thread_ example_factory ->
          threads w' !! t = threads two_factory_world !! t)
    /\ heap w' = heap two_factory_world
    /\ env w' = match at_exit_manager_ example_factory with
                | Some _ => example_at_exit_callbacks (env two_factory_world)
                | None => env two_factory_world
                end
    /\ (forall t task,
          (t, task) ∈ pending w' ->
          (t, task) ∈ pending two_factory_world
          /\ t <> io_thread_ example_factory
          /\ t <> event_thread_ example_factory)
    /\ (forall url parameters,
          CreateQuicTransportClient example_parse_url example_factory url
            parameters w' = Undefined)
    /\ QuicTransportFactoryImpl_dtor example_at_exit_callbacks
         example_factory w' = Undefined.
Proof.
  apply (X12_destructor_destroys_exactly_its_two_threads example_parse_url
           example_at_exit_callbacks example_factory two_factory_world).
  - reflexivity.
  - reflexivity.
Defined.

Lemma X13_witness :
  1 <> 2
  /\ exists s c,
       deref (after_client example_parse_url example_factory
                "https://example.test:9090" sha1_translated
                example_server_world) 1
         = Some (CallerThread, ServerObject s)
       /\ deref (after_client example_parse_url example_factory
                   "https://example.test:9090" sha1_translated
                   example_server_world) 2
          = Some (WorkerThread (io_thread_ example_factory), ClientObject c)
       /\ server_io_thread s = io_thread_ example_factory
       /\ client_io_thread c = io_thread_ example_factory
       /\ server_event_thread s = event_thread_ example_factory
       /\ client_event_thread c = event_thread_ example_factory.
Proof.
  apply (X13_server_then_client_share_the_factory_threads example_parse_url
           example_chromium_loads example_factory 9090%Z "cert.pem" "key.pem"
           "" "https://example.test:9090" sha1_parameters example_world
           example_server_world
           (after_client example_parse_url example_factory
              "https://example.test:9090" sha1_translated
              example_server_world) 1 2).
  - reflexivity.
  - reflexivity.
  - discriminate.
  - reflexivity.
Defined.
